(** * Performance aggregation of the betting dashboard (src/js/performance.js)

    A shallow embedding of the metric helpers ([calculateROI],
    [calculateWinRate], [formatROI], [getWlRecordColorClass]), of the two
    passes of [updateSummary] over the week's recommendations, of its header
    computation, and of the all-time panel of
    [loadPerformanceMetricsInternal]; then of [formatPercentage],
    [formatCurrencyWithPercentage], the cards of [displayRecommendations]
    and the week navigation of src/js/navigation.js.

    Numbers.  A JavaScript number is modelled as an exact rational ([Q]);
    the rounding of IEEE doubles and the infinities are outside the model.
    The theorems therefore equate amounts only where both sides come from
    the same sequence of operations, and otherwise state what rounding
    keeps (orders, bounds of [Math.round], integer counters); the header's
    ROI, where exact arithmetic and doubles part, is also given on doubles
    ([Double]).
    Counters that start at 0 and are only incremented are integers ([Z]).
    [NaN], which only the header computation can meet (it reads the snapshot
    without a [|| 0] default), is [None] in [option Q].

    Values.  The fields read from the JSON payloads are [jsval]s:
    [undefined] (an absent field), [null], a boolean or a number.  Strings,
    arrays and objects in those fields are outside the model. *)

From Stdlib Require Import List ZArith QArith Qround Bool Lia Lqa
  Permutation.
From Stdlib Require Floats.PrimFloat.
Import ListNotations.

Open Scope Q_scope.

(** ** JavaScript values and the operators the code applies to them *)

Module Js.

Inductive jsval : Type :=
  | JUndefined
  | JNull
  | JBool (b : bool)
  | JNum (q : Q).

(** ToBoolean: [undefined], [null], [false] and [0] are falsy. *)
Definition truthy (v : jsval) : bool :=
  match v with
  | JUndefined | JNull => false
  | JBool b => b
  | JNum q => negb (Qeq_bool q 0)
  end.

(** ToNumber; [None] stands for NaN. *)
Definition ToNumber (v : jsval) : option Q :=
  match v with
  | JUndefined => None
  | JNull => Some 0
  | JBool b => Some (if b then 1 else 0)
  | JNum q => Some q
  end.

(** [v || 0] used as an operand of arithmetic: [v] itself when it is truthy
    (a non-zero number, or [true], which arithmetic converts to 1), and 0
    otherwise. *)
Definition or_zero (v : jsval) : Q :=
  if truthy v then
    match v with
    | JNum q => q
    | _ => 1
    end
  else 0.

(** [v === true], [v === false], [v !== null]. *)
Definition is_true (v : jsval) : bool :=
  match v with JBool true => true | _ => false end.

Definition is_false (v : jsval) : bool :=
  match v with JBool false => true | _ => false end.

Definition not_null (v : jsval) : bool :=
  match v with JNull => false | _ => true end.

(** [a > b] and [a < b] on numbers. *)
Definition gt (a b : Q) : bool := negb (Qle_bool a b).
Definition lt (a b : Q) : bool := negb (Qle_bool b a).
Definition ge (a b : Q) : bool := Qle_bool b a.

(** [Math.round]: the nearest integer, a tie going up. *)
Definition Math_round (x : Q) : Z := Qfloor (x + (1 # 2)).

(** [Math.max] of two numbers. *)
Definition Math_max (a b : Q) : Q := if Qle_bool a b then b else a.

End Js.

Import Js.

(** ** Centralized performance calculations *)

(** The class added to an element's class list; [NoClass] is the empty
    string of [getWlRecordColorClass] and the case where no class is added. *)
Inductive colorClass : Type := Positive | Negative | NoClass.

Definition calculateROI (profitLoss wager : Q) : Q :=
  if Qeq_bool wager 0 then 0 else (profitLoss / wager) * 100.

(** [formatROI] returns the empty string ([None]) for a zero wager and
    otherwise the rounded percentage, here the integer before the [%]. *)
Definition formatROI (profitLoss wager : Q) : option Z :=
  if Qeq_bool wager 0 then None
  else Some (Math_round (calculateROI profitLoss wager)).

Definition calculateWinRate (wins totalBets : Q) : Q :=
  if Qeq_bool totalBets 0 then 0 else wins / totalBets.

Definition getWlRecordColorClass (wins losses : Z) : colorClass :=
  if (wins >? losses)%Z then Positive
  else if (wins <? losses)%Z then Negative
  else NoClass.

(** ** The weekly summary of [updateSummary] *)

Record BetRecord : Type := mkBet {
  recommendedWager : jsval;
  profitLoss : jsval;
  wasCorrect : jsval;
  isTopPick : jsval
}.

(** *** First pass: the week's totals *)

Record Totals : Type := mkTotals {
  totalWagered : Q;
  wins : Z;
  losses : Z;
  pendingBets : Z;
  totalProfitLoss : Q;
  completedWager : Q
}.

Definition totals0 : Totals := mkTotals 0 0 0 0 0 0.

(** The body of the first [recommendations.forEach]. *)
Definition totals_step (t : Totals) (rec : BetRecord) : Totals :=
  let wager := or_zero (recommendedWager rec) in
  let w := totalWagered t + wager in
  if is_true (wasCorrect rec) then
    mkTotals w (wins t + 1) (losses t) (pendingBets t)
             (totalProfitLoss t + or_zero (profitLoss rec))
             (completedWager t + wager)
  else if is_false (wasCorrect rec) then
    mkTotals w (wins t) (losses t + 1) (pendingBets t)
             (totalProfitLoss t + or_zero (profitLoss rec))
             (completedWager t + wager)
  else
    mkTotals w (wins t) (losses t) (pendingBets t + 1)
             (totalProfitLoss t) (completedWager t).

Definition totals_pass (recommendations : list BetRecord) : Totals :=
  fold_left totals_step recommendations totals0.

(** *** Second pass: TOP PICKS and OTHER BETS *)

Record Cohort : Type := mkCohort {
  cCount : Z;
  cWagered : Q;
  cWins : Z;
  cLosses : Z;
  cPending : Z;
  cProfitLoss : Q;
  cCompletedWager : Q
}.

Definition cohort0 : Cohort := mkCohort 0 0 0 0 0 0 0.

Record Cohorts : Type := mkCohorts {
  topPicks : Cohort;
  otherBets : Cohort
}.

Definition cohorts0 : Cohorts := mkCohorts cohort0 cohort0.

(** What either branch of [if (rec.isTopPick)] does to its own counters. *)
Definition cohort_add (c : Cohort) (rec : BetRecord) : Cohort :=
  let wager := or_zero (recommendedWager rec) in
  let pl := or_zero (profitLoss rec) in
  let isCompleted := not_null (wasCorrect rec) in
  let isWin := is_true (wasCorrect rec) in
  let isLoss := is_false (wasCorrect rec) in
  if isCompleted then
    mkCohort (cCount c + 1) (cWagered c + wager)
             (if isWin then cWins c + 1 else cWins c)
             (if isWin then cLosses c
              else if isLoss then cLosses c + 1 else cLosses c)
             (cPending c)
             (cProfitLoss c + pl)
             (cCompletedWager c + wager)
  else
    mkCohort (cCount c + 1) (cWagered c + wager)
             (cWins c) (cLosses c) (cPending c + 1)
             (cProfitLoss c) (cCompletedWager c).

(** The body of the second [recommendations.forEach]. *)
Definition cohorts_step (s : Cohorts) (rec : BetRecord) : Cohorts :=
  if truthy (isTopPick rec)
  then mkCohorts (cohort_add (topPicks s) rec) (otherBets s)
  else mkCohorts (topPicks s) (cohort_add (otherBets s) rec).

Definition cohorts_pass (recommendations : list BetRecord) : Cohorts :=
  fold_left cohorts_step recommendations cohorts0.

(** *** What the weekly summary shows *)

(** The three-way colouring of a weekly profit/loss figure: a class is only
    added for a non-zero value. *)
Definition weeklyPLClass (pl : Q) : colorClass :=
  if gt pl 0 then Positive
  else if lt pl 0 then Negative
  else NoClass.

(** One block of the weekly summary (overall, TOP PICKS or OTHER BETS). *)
Record Block : Type := mkBlock {
  count : Z;
  wagered : Q;
  bWins : Z;
  bLosses : Z;
  pending : Z;
  asterisk : bool;
  bProfitLoss : Q;
  bCompletedWager : Q;
  pendingWager : Q;
  roi : Q;
  roiFormatted : option Z;
  plClass : colorClass
}.

Record WeeklySummary : Type := mkWeekly {
  overall : Block;
  wTopPicks : Block;
  wOtherBets : Block
}.

(** The overall block: [number-of-bets] shows [recommendations.length]. *)
Definition overall_block (recommendations : list BetRecord) : Block :=
  let t := totals_pass recommendations in
  mkBlock (Z.of_nat (length recommendations))
          (totalWagered t) (wins t) (losses t) (pendingBets t)
          (pendingBets t >? 0)%Z
          (totalProfitLoss t) (completedWager t)
          (Math_max 0 (totalWagered t - completedWager t))
          (calculateROI (totalProfitLoss t) (totalWagered t))
          (formatROI (totalProfitLoss t) (totalWagered t))
          (weeklyPLClass (totalProfitLoss t)).

Definition cohort_block (c : Cohort) : Block :=
  mkBlock (cCount c) (cWagered c) (cWins c) (cLosses c) (cPending c)
          (cPending c >? 0)%Z
          (cProfitLoss c) (cCompletedWager c)
          (Math_max 0 (cWagered c - cCompletedWager c))
          (calculateROI (cProfitLoss c) (cWagered c))
          (formatROI (cProfitLoss c) (cWagered c))
          (weeklyPLClass (cProfitLoss c)).

Definition weeklySummary (recommendations : list BetRecord) : WeeklySummary :=
  let s := cohorts_pass recommendations in
  mkWeekly (overall_block recommendations)
           (cohort_block (topPicks s))
           (cohort_block (otherBets s)).

(** ** The server's pre-aggregated snapshot ([/api/analytics/performance]) *)

Module Data.

Record t : Type := mk {
  totalBets : jsval;
  totalWager : jsval;
  totalProfitLoss : jsval;
  winRate : jsval;
  topPicksCount : jsval;
  topPicksWager : jsval;
  topPicksProfitLoss : jsval;
  topPicksWinRate : jsval
}.

End Data.

(** ** The header of [updateSummary]

    The header reads the snapshot without defaults, so its arithmetic is
    on [option Q], with [None] for NaN. *)

Module Header.

Definition bind {A B : Type} (x : option A) (f : A -> option B) : option B :=
  match x with
  | Some a => f a
  | None => None
  end.

Notation "x <- e ;; k" := (bind e (fun x => k))
  (at level 61, e at next level, right associativity).

Definition startingBankroll : Q := 10000.

(** A comparison with NaN is false, so no class is added. *)
Definition signClass (x : option Q) (pivot : Q) : colorClass :=
  match x with
  | Some v =>
      if gt v pivot then Positive
      else if lt v pivot then Negative
      else NoClass
  | None => NoClass
  end.

Record t : Type := mk {
  currentBankroll : option Q;
  totalWins : option Z;
  totalLosses : option Q;
  overallROI : option Q;
  headerROIShown : option Z;
  headerPerformanceClass : colorClass;
  headerROIClass : colorClass
}.

Definition compute (data : Data.t) : t :=
  let currentBankroll :=
    pl <- ToNumber (Data.totalProfitLoss data) ;;
    Some (startingBankroll + pl) in
  let totalWins :=
    wr <- ToNumber (Data.winRate data) ;;
    tb <- ToNumber (Data.totalBets data) ;;
    Some (Math_round (wr * tb)) in
  let totalLosses :=
    tb <- ToNumber (Data.totalBets data) ;;
    tw <- totalWins ;;
    Some (tb - inject_Z tw) in
  let overallROI :=
    cb <- currentBankroll ;;
    Some (((cb - startingBankroll) / startingBankroll) * 100) in
  mk currentBankroll totalWins totalLosses overallROI
     (r <- overallROI ;; Some (Math_round ((r / 100) * 100)))
     (signClass (ToNumber (Data.winRate data)) (1 # 2))
     (signClass overallROI 0).

End Header.

(** ** The all-time panel of [loadPerformanceMetricsInternal] *)

Module AllTime.

(** The two-way colouring of the all-time figures:
    [x >= pivot ? 'positive' : 'negative']. *)
Definition twoWayClass (x pivot : Q) : colorClass :=
  if ge x pivot then Positive else Negative.

(** The three-way colouring of the overall win rate. *)
Definition winRateClass (x : Q) : colorClass :=
  if gt x (1 # 2) then Positive
  else if lt x (1 # 2) then Negative
  else NoClass.

Record Metrics : Type := mkMetrics {
  roi : Q;
  roiFormatted : option Z;
  winRate : Q;
  winRateShown : Z
}.

(** [formatPercentage (calculateWinRate wins totalBets)], the integer
    before the [%]. *)
Definition formatWinRate (wins totalBets : Q) : Z :=
  Math_round (calculateWinRate wins totalBets * 100).

Definition metrics (pl wager wins bets : Q) : Metrics :=
  mkMetrics (calculateROI pl wager) (formatROI pl wager)
            (calculateWinRate wins bets) (formatWinRate wins bets).

Record Panel : Type := mkPanel {
  totalBetsShown : Q;
  totalWager : Q;
  totalPL : Q;
  totalWins : Z;
  overallMetrics : Metrics;
  totalLosses : Q;
  winRateElementClass : colorClass;
  totalPLClass : colorClass;
  topPicksCount : Q;
  topPicksWager : Q;
  topPicksPL : Q;
  topPicksWins : Z;
  topPicksMetrics : Metrics;
  otherBetsCount : Q;
  otherBetsWager : Q;
  otherBetsPL : Q;
  otherBetsWins : Z;
  otherBetsMetrics : Metrics;
  otherBetsPLClass : colorClass;
  topPicksPLClass : colorClass;
  topPicksLosses : Q;
  topPicksWinRateClass : colorClass;
  otherBetsLosses : Q;
  otherBetsWinRateClass : colorClass
}.

Definition loadPerformanceMetricsInternal (data : Data.t) : Panel :=
  let totalWager := or_zero (Data.totalWager data) in
  let totalPL := or_zero (Data.totalProfitLoss data) in
  let totalWins :=
    Math_round (or_zero (Data.winRate data) * or_zero (Data.totalBets data)) in
  let overallMetrics :=
    metrics totalPL totalWager (inject_Z totalWins)
            (or_zero (Data.totalBets data)) in
  let totalLosses := or_zero (Data.totalBets data) - inject_Z totalWins in
  let topPicksCount := or_zero (Data.topPicksCount data) in
  let topPicksWager := or_zero (Data.topPicksWager data) in
  let topPicksPL := or_zero (Data.topPicksProfitLoss data) in
  let topPicksWins :=
    Math_round (or_zero (Data.topPicksWinRate data) * topPicksCount) in
  let topPicksMetrics :=
    metrics topPicksPL topPicksWager (inject_Z topPicksWins) topPicksCount in
  let otherBetsCount :=
    or_zero (Data.totalBets data) - or_zero (Data.topPicksCount data) in
  let otherBetsWager :=
    or_zero (Data.totalWager data) - or_zero (Data.topPicksWager data) in
  let otherBetsPL :=
    or_zero (Data.totalProfitLoss data)
    - or_zero (Data.topPicksProfitLoss data) in
  let otherBetsWins := (totalWins - topPicksWins)%Z in
  let otherBetsMetrics :=
    metrics otherBetsPL otherBetsWager (inject_Z otherBetsWins)
            otherBetsCount in
  mkPanel (or_zero (Data.totalBets data)) totalWager totalPL totalWins
          overallMetrics totalLosses
          (winRateClass (winRate overallMetrics))
          (twoWayClass totalPL 0)
          topPicksCount topPicksWager topPicksPL topPicksWins
          topPicksMetrics
          otherBetsCount otherBetsWager otherBetsPL otherBetsWins
          otherBetsMetrics
          (twoWayClass otherBetsPL 0)
          (twoWayClass topPicksPL 0)
          (topPicksCount - inject_Z topPicksWins)
          (twoWayClass (winRate topPicksMetrics) (1 # 2))
          (otherBetsCount - inject_Z otherBetsWins)
          (twoWayClass (winRate otherBetsMetrics) (1 # 2)).

End AllTime.

(** ** Vocabulary of the statements *)

(** The outcomes of the data model: [wasCorrect] is [true], [false] or
    [null]. *)
Definition outcome_ok (v : jsval) : bool :=
  match v with
  | JBool _ | JNull => true
  | _ => false
  end.

Definition outcomes_ok (recommendations : list BetRecord) : bool :=
  forallb (fun rec => outcome_ok (wasCorrect rec)) recommendations.

(** The counters of the first pass and of the second pass agree, with [n]
    the number of records seen so far. *)
Definition partitioned (n : Z) (t : Totals) (s : Cohorts) : Prop :=
  n = (cCount (topPicks s) + cCount (otherBets s))%Z /\
  wins t = (cWins (topPicks s) + cWins (otherBets s))%Z /\
  losses t = (cLosses (topPicks s) + cLosses (otherBets s))%Z /\
  pendingBets t = (cPending (topPicks s) + cPending (otherBets s))%Z.

(** The counters of the first pass: non-negative, and one of the three is
    incremented for each record. *)
Definition totals_counted (n : Z) (t : Totals) : Prop :=
  (0 <= wins t /\ 0 <= losses t /\ 0 <= pendingBets t)%Z /\
  (wins t + losses t + pendingBets t = n)%Z.

(** The counters of one cohort: non-negative, and (when every outcome is
    [true], [false] or [null]) adding up to the cohort's count. *)
Definition cohort_nonneg (c : Cohort) : Prop :=
  (0 <= cCount c /\ 0 <= cWins c /\ 0 <= cLosses c /\ 0 <= cPending c)%Z.

Definition cohort_counted (c : Cohort) : Prop :=
  (cWins c + cLosses c + cPending c = cCount c)%Z.

(** The scenario of three recommendations: a won top pick, a lost other
    bet, and a pending other bet. *)
Definition scenarioA : list BetRecord :=
  [ mkBet (JNum 100) (JNum 50) (JBool true) (JBool true);
    mkBet (JNum 100) (JNum (-100)) (JBool false) (JBool false);
    mkBet (JNum 50) JNull JNull (JBool false) ].

(** The specification's [classifySign], stated from its words, to be
    compared with the colouring the code performs: a value above 0 is
    positive, a value below 0 is negative, and 0 is neutral. *)
Definition spec_classifySign (value : Q) : colorClass :=
  match value ?= 0 with
  | Gt => Positive
  | Lt => Negative
  | Eq => NoClass
  end.

(** A snapshot whose all-time profit/loss is exactly 0. *)
Definition snapshot_even : Data.t :=
  Data.mk (JNum 10) (JNum 1000) (JNum 0) (JNum (1 # 2))
          (JNum 4) (JNum 400) (JNum 25) (JNum (1 # 2)).

(** The snapshot whose eight fields are the given numbers. *)
Definition snapshot (tb tw pl wr tc tpw tpl twr : Q) : Data.t :=
  Data.mk (JNum tb) (JNum tw) (JNum pl) (JNum wr)
          (JNum tc) (JNum tpw) (JNum tpl) (JNum twr).

(** ** Utility formatting ([formatPercentage],
       [formatCurrencyWithPercentage]) *)

(** [formatPercentage]: the rounded percentage, here the integer before the
    [%]. *)
Definition formatPercentage (value : Q) : Z := Math_round (value * 100).

(** [formatCurrencyWithPercentage]: the amount handed to [formatCurrency],
    and the percentage span, which is left out ([None]) when the percentage
    is the empty string or the amount is 0. *)
Definition formatCurrencyWithPercentage (amount : Q) (percentage : option Z)
  : Q * option Z :=
  (amount,
   match percentage with
   | Some n => if Qeq_bool amount 0 then None else Some n
   | None => None
   end).

(** What [updateSummary] writes into the profit/loss element of a weekly
    block: [formatCurrencyWithPercentage(profitLoss, formatROI(...))]. *)
Definition plShown (b : Block) : Q * option Z :=
  formatCurrencyWithPercentage (bProfitLoss b) (roiFormatted b).

(** ** The recommendation cards ([displayRecommendations],
       [createRecommendationCard]) *)

(** The outcome badge of a card:
    [wasCorrect !== null ? (wasCorrect ? WIN : LOSS) : PENDING]. *)
Inductive OutcomeBadge : Type := BadgeWin | BadgeLoss | BadgePending.

Definition outcomeBadge (rec : BetRecord) : OutcomeBadge :=
  if not_null (wasCorrect rec) then
    if truthy (wasCorrect rec) then BadgeWin else BadgeLoss
  else BadgePending.

(** The BET metric of a card: the wager with the profit for a win, the
    wager as a loss, or the wager alone while the bet is open.  The wager
    and the profit are the record's fields as they are handed to
    [formatCurrency]. *)
Inductive BetMetric : Type :=
  | WagerWithProfit (wager profit : jsval)
  | WagerLost (wager : jsval)
  | WagerOpen (wager : jsval).

Definition betMetric (rec : BetRecord) : BetMetric :=
  if not_null (wasCorrect rec) then
    if truthy (wasCorrect rec)
    then WagerWithProfit (recommendedWager rec) (profitLoss rec)
    else WagerLost (recommendedWager rec)
  else WagerOpen (recommendedWager rec).

(** The parts of a card that depend on the fields of [BetRecord]; the texts
    built from the game, the sportsbook and the broadcast are not
    modelled.  The [index] argument is not used by the template. *)
Record Card : Type := mkCard {
  topPickBadge : bool;
  cardOutcome : OutcomeBadge;
  cardBet : BetMetric
}.

Definition createRecommendationCard
    (recommendation : BetRecord) (index : nat) (isTopPick : bool) : Card :=
  mkCard isTopPick (outcomeBadge recommendation) (betMetric recommendation).

(** [list.forEach((rec, index) => html += f(rec, index))], from index [i]. *)
Fixpoint forEach_indexed {A B : Type} (f : A -> nat -> B) (i : nat)
    (l : list A) : list B :=
  match l with
  | [] => []
  | x :: l' => f x i :: forEach_indexed f (S i) l'
  end.

Inductive SectionTitle : Type := TOP_PICKS | OTHER_BETS.

(** What [displayRecommendations] puts into the container: the
    "No recommendations available" message, or the sections in order, each
    with its title and its cards. *)
Inductive Display : Type :=
  | NoRecommendations
  | Sections (sections : list (SectionTitle * list Card)).

Definition displayRecommendations (recommendations : list BetRecord)
  : Display :=
  if (length recommendations =? 0)%nat then NoRecommendations
  else
    let topPicks :=
      filter (fun rec => truthy (isTopPick rec)) recommendations in
    let otherBets :=
      filter (fun rec => negb (truthy (isTopPick rec))) recommendations in
    Sections
      ((if (0 <? length topPicks)%nat
        then [(TOP_PICKS,
               forEach_indexed
                 (fun rec index => createRecommendationCard rec index true)
                 0 topPicks)]
        else [])
       ++
       (if (0 <? length otherBets)%nat
        then [(OTHER_BETS,
               forEach_indexed
                 (fun rec index => createRecommendationCard rec index false)
                 0 otherBets)]
        else [])).

(** The cards of the section with the given title (none when the section is
    not rendered). *)
Definition cards_of (title : SectionTitle) (d : Display) : list Card :=
  match d with
  | NoRecommendations => []
  | Sections sections =>
      flat_map
        (fun s =>
           match title, fst s with
           | TOP_PICKS, TOP_PICKS | OTHER_BETS, OTHER_BETS => snd s
           | _, _ => []
           end)
        sections
  end.

(** ** Week navigation (src/js/navigation.js)

    The globals [currentWeek], [totalWeeks] and [availableWeeks] are an
    explicit state; week numbers are integers.  A [Server] answers
    [GET /api/recommendations/week/{week}]: [None] when the fetch or the
    JSON decoding throws, and otherwise the length of
    [data.recommendations || []].  Each call runs to its end before the
    next one starts, and the loads that [changeWeek] starts without
    awaiting them are not part of the model. *)

Module Nav.

Record State : Type := mkState {
  currentWeek : Z;
  totalWeeks : Z;
  availableWeeks : list Z
}.

Definition Server : Type := Z -> option nat.

(** [availableWeeks.has(week)] and [availableWeeks.add(week)] on the
    insertion-ordered [Set]. *)
Definition has (weeks : list Z) (week : Z) : bool :=
  existsb (Z.eqb week) weeks.

Definition add (weeks : list Z) (week : Z) : list Z :=
  if has weeks week then weeks else weeks ++ [week].

(** The state of a fresh page: week 1 of 18, week 1 available. *)
Definition initial : State := mkState 1 18 [1%Z].

Definition checkWeek (srv : Server) (week : Z) (weeks : list Z)
  : bool * list Z :=
  if has weeks week then (true, weeks)
  else
    match srv week with
    | Some n =>
        if (0 <? n)%nat then (true, add weeks week) else (false, weeks)
    | None => (false, weeks)
    end.

(** The two buttons after [updateWeekNavigation]: each is enabled and shown
    when the flag is true, disabled and hidden when it is false. *)
Record Buttons : Type := mkButtons {
  hasPrevWeek : bool;
  hasNextWeek : bool
}.

(** [if (week)] on [week = cond ? n : null]: [null] and 0 are falsy. *)
Definition check_if_truthy (srv : Server) (week : option Z) (weeks : list Z)
  : bool * list Z :=
  match week with
  | Some w => if (w =? 0)%Z then (false, weeks) else checkWeek srv w weeks
  | None => (false, weeks)
  end.

Definition updateWeekNavigation (srv : Server) (st : State)
  : Buttons * State :=
  let prevWeek :=
    if (currentWeek st >? 1)%Z then Some (currentWeek st - 1)%Z else None in
  let nextWeek :=
    if (currentWeek st <? totalWeeks st)%Z
    then Some (currentWeek st + 1)%Z else None in
  let (hasPrev, weeks1) := check_if_truthy srv prevWeek (availableWeeks st) in
  let (hasNext, weeks2) := check_if_truthy srv nextWeek weeks1 in
  (mkButtons hasPrev hasNext,
   mkState (currentWeek st) (totalWeeks st) weeks2).

(** [changeWeek(direction)], with the buttons it leaves when it ran
    [updateWeekNavigation] ([None] when it did not change the week). *)
Definition changeWeek (srv : Server) (direction : Z) (st : State)
  : option Buttons * State :=
  let newWeek := (currentWeek st + direction)%Z in
  if ((newWeek >=? 1) && (newWeek <=? totalWeeks st))%Z then
    let (hasRecommendations, weeks1) :=
      checkWeek srv newWeek (availableWeeks st) in
    if hasRecommendations then
      let (buttons, st') :=
        updateWeekNavigation srv (mkState newWeek (totalWeeks st) weeks1) in
      (Some buttons, st')
    else (None, mkState (currentWeek st) (totalWeeks st) weeks1)
  else (None, st).

(** A sequence of clicks, each with the server's answers at that time. *)
Definition clicks (events : list (Server * Z)) (st : State) : State :=
  fold_left (fun s e => snd (changeWeek (fst e) (snd e) s)) events st.

(** The page's navigation state is sound: the week shown is between 1 and
    [totalWeeks] and is one of the available weeks. *)
Definition sound (st : State) : Prop :=
  (1 <= currentWeek st <= totalWeeks st)%Z /\
  has (availableWeeks st) (currentWeek st) = true.

End Nav.

(** ** More vocabulary of the statements *)

(** The first pass counted the same. *)
Definition Totals_equiv (a b : Totals) : Prop :=
  wins a = wins b /\ losses a = losses b /\ pendingBets a = pendingBets b.

(** The second pass counted the same in a cohort, and in both. *)
Definition Cohort_equiv (a b : Cohort) : Prop :=
  cCount a = cCount b /\ cWins a = cWins b /\
  cLosses a = cLosses b /\ cPending a = cPending b.

Definition Cohorts_equiv (a b : Cohorts) : Prop :=
  Cohort_equiv (topPicks a) (topPicks b) /\
  Cohort_equiv (otherBets a) (otherBets b).

(** The counters and flags two blocks show are the same. *)
Definition same_counters (a b : Block) : Prop :=
  count a = count b /\ bWins a = bWins b /\ bLosses a = bLosses b /\
  pending a = pending b /\ asterisk a = asterisk b.

(** The amounts a record contributes: [rec.recommendedWager || 0] and
    [rec.profitLoss || 0]. *)
Definition wager_of (rec : BetRecord) : Q := or_zero (recommendedWager rec).

Definition pl_of (rec : BetRecord) : Q := or_zero (profitLoss rec).

(** The amounts of a list added one after the other to a total that starts
    at 0, as a [forEach] with [+=] adds them. *)
Definition sum_left (amounts : list Q) : Q := fold_left Qplus amounts 0.

(** A record the second pass takes as completed: [wasCorrect !== null]. *)
Definition decided (rec : BetRecord) : bool := not_null (wasCorrect rec).

(** The records of the two cohorts, in the order of the list. *)
Definition top_picks (recommendations : list BetRecord) : list BetRecord :=
  filter (fun rec => truthy (isTopPick rec)) recommendations.

Definition other_bets (recommendations : list BetRecord) : list BetRecord :=
  filter (fun rec => negb (truthy (isTopPick rec))) recommendations.

(** Every wager of the list counts as a non-negative amount. *)
Definition wagers_nonneg (recommendations : list BetRecord) : bool :=
  forallb (fun rec => Qle_bool 0 (or_zero (recommendedWager rec)))
          recommendations.

(** Every bet of the list is open: [wasCorrect] is [null]. *)
Definition all_open (recommendations : list BetRecord) : bool :=
  forallb (fun rec => negb (not_null (wasCorrect rec))) recommendations.

(** A record the first pass counts as pending. *)
Definition counted_pending (rec : BetRecord) : bool :=
  negb (is_true (wasCorrect rec)) && negb (is_false (wasCorrect rec)).

(** The number of cards of a list that carry the given badge. *)
Definition badges (b : OutcomeBadge) (recommendations : list BetRecord) : Z :=
  Z.of_nat
    (length
       (filter
          (fun rec =>
             match b, outcomeBadge rec with
             | BadgeWin, BadgeWin | BadgeLoss, BadgeLoss
             | BadgePending, BadgePending => true
             | _, _ => false
             end)
          recommendations)).

(** A snapshot none of whose fields is present with a non-zero value. *)
Definition snapshot_blank (data : Data.t) : bool :=
  negb (truthy (Data.totalBets data)) &&
  negb (truthy (Data.totalWager data)) &&
  negb (truthy (Data.totalProfitLoss data)) &&
  negb (truthy (Data.winRate data)) &&
  negb (truthy (Data.topPicksCount data)) &&
  negb (truthy (Data.topPicksWager data)) &&
  negb (truthy (Data.topPicksProfitLoss data)) &&
  negb (truthy (Data.topPicksWinRate data)).

(** ** The header's ROI on IEEE doubles

    The arithmetic of lines 224-228 of [updateSummary] on binary64
    numbers, as JavaScript evaluates it, for a numeric
    [data.totalProfitLoss]. *)

Module Double.

Import PrimFloat.

Definition startingBankroll : float := 10000%float.

Definition overallROI (totalProfitLoss : float) : float :=
  let currentBankroll := (startingBankroll + totalProfitLoss)%float in
  (((currentBankroll - startingBankroll) / startingBankroll) * 100)%float.

(** [a === b] on two numbers. *)
Definition strict_eq (a b : float) : bool := PrimFloat.eqb a b.

End Double.

(** ** Facts about the operators *)

Lemma or_zero_num (q : Q) : or_zero (JNum q) == q.
Proof.
  unfold or_zero, truthy.
  destruct (Qeq_bool q 0) eqn:E; simpl.
  - apply Qeq_bool_iff in E. now symmetry.
  - reflexivity.
Qed.

Lemma Math_max_nonneg (x : Q) : 0 <= Math_max 0 x.
Proof.
  unfold Math_max.
  destruct (Qle_bool 0 x) eqn:E.
  - now apply Qle_bool_iff.
  - apply Qle_refl.
Qed.

Lemma gt_iff (a b : Q) : gt a b = true <-> b < a.
Proof.
  unfold gt. rewrite negb_true_iff.
  split; intro H.
  - apply Qnot_le_lt. intro L. apply Qle_bool_iff in L. congruence.
  - destruct (Qle_bool a b) eqn:E; [|reflexivity].
    apply Qle_bool_iff in E. exfalso. apply (Qlt_not_le _ _ H E).
Qed.

Lemma lt_iff (a b : Q) : lt a b = true <-> a < b.
Proof. unfold lt. apply (gt_iff b a). Qed.

Lemma ge_iff (a b : Q) : ge a b = true <-> b <= a.
Proof. unfold ge. apply Qle_bool_iff. Qed.

(** ** The metric helpers *)

(** C2. For every profit/loss [p] and wager [w], [calculateROI p w] is
    [(p / w) * 100] when [w] is not zero and [0] when [w] is zero, whatever
    [p] is.  The function is total: it has a value at every pair of
    numbers, and the zero wager is answered before the division. *)
Theorem calculateROI_spec (p w : Q) :
  (~ w == 0 -> calculateROI p w = (p / w) * 100) /\
  (w == 0 -> calculateROI p w = 0) /\
  (exists r : Q, calculateROI p w = r).
Proof.
  unfold calculateROI.
  destruct (Qeq_bool w 0) eqn:E.
  - apply Qeq_bool_iff in E.
    repeat split; [intro N; contradiction | eexists; reflexivity].
  - apply Qeq_bool_neq in E.
    repeat split; [intro Hz; contradiction | eexists; reflexivity].
Qed.

Lemma calculateROI_spec_witness :
  calculateROI 50 200 = (50 / 200) * 100 /\ calculateROI 7 0 = 0.
Proof.
  split.
  - apply (proj1 (calculateROI_spec 50 200)). discriminate.
  - apply (proj1 (proj2 (calculateROI_spec 7 0))). reflexivity.
Defined.

(** C3. For counts [wins], [losses >= 0], [calculateWinRate] applied to
    [wins] and [wins + losses] is [wins / (wins + losses)] when
    [wins + losses > 0] and [0] when that denominator is 0; and for any
    supplied denominator [totalDecided] the result is
    [wins / totalDecided] when it is not zero and [0] when it is. *)
Theorem calculateWinRate_spec (w l : Z) (wins totalDecided : Q) :
  (0 <= w)%Z -> (0 <= l)%Z ->
  ((0 < w + l)%Z ->
     calculateWinRate (inject_Z w) (inject_Z w + inject_Z l)
     = inject_Z w / (inject_Z w + inject_Z l)) /\
  ((w + l = 0)%Z ->
     calculateWinRate (inject_Z w) (inject_Z w + inject_Z l) = 0) /\
  (~ totalDecided == 0 ->
     calculateWinRate wins totalDecided = wins / totalDecided) /\
  (totalDecided == 0 -> calculateWinRate wins totalDecided = 0).
Proof.
  intros Hw Hl.
  assert (G : forall a b : Q,
             (~ b == 0 -> calculateWinRate a b = a / b) /\
             (b == 0 -> calculateWinRate a b = 0)).
  { intros a b. unfold calculateWinRate.
    destruct (Qeq_bool b 0) eqn:E.
    - apply Qeq_bool_iff in E. split; [intro N; contradiction | reflexivity].
    - apply Qeq_bool_neq in E. split; [reflexivity | intro Hz; contradiction]. }
  assert (S : inject_Z w + inject_Z l == inject_Z (w + l)).
  { now rewrite inject_Z_plus. }
  repeat split.
  - intro P. apply (proj1 (G _ _)). rewrite S.
    intro Hz. apply (inject_Z_injective (w + l) 0) in Hz. lia.
  - intro Hz. apply (proj2 (G _ _)). rewrite S, Hz. reflexivity.
  - apply (proj1 (G _ _)).
  - apply (proj2 (G _ _)).
Qed.

Lemma calculateWinRate_spec_witness :
  calculateWinRate (inject_Z 3) (inject_Z 3 + inject_Z 1)
  = inject_Z 3 / (inject_Z 3 + inject_Z 1) /\
  calculateWinRate (inject_Z 0) (inject_Z 0 + inject_Z 0) = 0 /\
  calculateWinRate 3 4 = 3 / 4 /\
  calculateWinRate 3 0 = 0.
Proof.
  destruct (calculateWinRate_spec 3 1 3 4 ltac:(lia) ltac:(lia))
    as (A & _ & C & _).
  destruct (calculateWinRate_spec 0 0 3 0 ltac:(lia) ltac:(lia))
    as (_ & B & _ & D).
  split; [|split; [|split]].
  - apply A. lia.
  - apply B. lia.
  - apply C. discriminate.
  - apply D. reflexivity.
Defined.

(** ** The weekly aggregation *)

Lemma partitioned_step n t s rec :
  outcome_ok (wasCorrect rec) = true ->
  partitioned n t s ->
  partitioned (n + 1) (totals_step t rec) (cohorts_step s rec).
Proof.
  intros Hok (Hn & Hwin & Hloss & Hpend).
  unfold partitioned, totals_step, cohorts_step, cohort_add.
  destruct (wasCorrect rec) as [ | | [|] | q]; try discriminate;
    destruct (truthy (isTopPick rec)); simpl;
    repeat match goal with |- _ /\ _ => split end;
    try lia; try lra.
Qed.

Lemma partitioned_fold recs : forall n t s,
  outcomes_ok recs = true ->
  partitioned n t s ->
  partitioned (n + Z.of_nat (length recs))
              (fold_left totals_step recs t)
              (fold_left cohorts_step recs s).
Proof.
  induction recs as [|rec recs IH]; intros n t s Hok Hinv.
  - simpl. now rewrite Z.add_0_r.
  - simpl in Hok. apply andb_true_iff in Hok as [Hrec Hrest].
    cbn [fold_left length].
    replace (n + Z.of_nat (S (length recs)))%Z
      with ((n + 1) + Z.of_nat (length recs))%Z by lia.
    apply IH; [assumption|].
    now apply partitioned_step.
Qed.

Lemma totals_counted_fold recs : forall n t,
  totals_counted n t ->
  totals_counted (n + Z.of_nat (length recs)) (fold_left totals_step recs t).
Proof.
  induction recs as [|rec recs IH]; intros n t H.
  - simpl. now rewrite Z.add_0_r.
  - cbn [fold_left length].
    replace (n + Z.of_nat (S (length recs)))%Z
      with ((n + 1) + Z.of_nat (length recs))%Z by lia.
    apply IH. destruct H as ((Hw & Hl & Hp) & Hsum).
    unfold totals_counted, totals_step.
    destruct (is_true (wasCorrect rec));
      [|destruct (is_false (wasCorrect rec))]; simpl; lia.
Qed.

Lemma cohort_add_nonneg c rec :
  cohort_nonneg c -> cohort_nonneg (cohort_add c rec).
Proof.
  unfold cohort_nonneg, cohort_add. intros (Hc & Hw & Hl & Hp).
  destruct (not_null (wasCorrect rec)), (is_true (wasCorrect rec)),
    (is_false (wasCorrect rec)); simpl; lia.
Qed.

Lemma cohort_add_counted c rec :
  outcome_ok (wasCorrect rec) = true ->
  cohort_counted c -> cohort_counted (cohort_add c rec).
Proof.
  unfold cohort_counted, cohort_add. intros Hok H.
  destruct (wasCorrect rec) as [ | | [|] | q]; try discriminate;
    simpl; lia.
Qed.

Lemma cohorts_nonneg_fold recs : forall s,
  cohort_nonneg (topPicks s) -> cohort_nonneg (otherBets s) ->
  cohort_nonneg (topPicks (fold_left cohorts_step recs s)) /\
  cohort_nonneg (otherBets (fold_left cohorts_step recs s)).
Proof.
  induction recs as [|rec recs IH]; intros s Ht Ho; [now split|].
  cbn [fold_left]. apply IH; unfold cohorts_step;
    destruct (truthy (isTopPick rec)); simpl;
    auto using cohort_add_nonneg.
Qed.

Lemma cohorts_counted_fold recs : forall s,
  outcomes_ok recs = true ->
  cohort_counted (topPicks s) -> cohort_counted (otherBets s) ->
  cohort_counted (topPicks (fold_left cohorts_step recs s)) /\
  cohort_counted (otherBets (fold_left cohorts_step recs s)).
Proof.
  induction recs as [|rec recs IH]; intros s Hok Ht Ho; [now split|].
  simpl in Hok. apply andb_true_iff in Hok as [Hrec Hrest].
  cbn [fold_left]. apply IH; [assumption | |]; unfold cohorts_step;
    destruct (truthy (isTopPick rec)); simpl;
    auto using cohort_add_counted.
Qed.

Lemma cohorts_partition_list (l : list BetRecord) :
  Permutation (top_picks l ++ other_bets l) l.
Proof.
  unfold top_picks, other_bets.
  induction l as [|rec l IH]; [constructor|].
  cbn [filter]. destruct (truthy (isTopPick rec)); cbn [negb app].
  - now constructor.
  - symmetry. apply Permutation_cons_app. now symmetry.
Qed.

Lemma totals_sums (l : list BetRecord) : forall t,
  outcomes_ok l = true ->
  totalWagered (fold_left totals_step l t)
  = fold_left Qplus (map wager_of l) (totalWagered t) /\
  totalProfitLoss (fold_left totals_step l t)
  = fold_left Qplus (map pl_of (filter decided l)) (totalProfitLoss t) /\
  completedWager (fold_left totals_step l t)
  = fold_left Qplus (map wager_of (filter decided l)) (completedWager t).
Proof.
  induction l as [|rec l IH]; intros t H; [repeat split|].
  cbn [outcomes_ok forallb] in H. apply andb_true_iff in H as [Hr Hl].
  cbn [fold_left map filter].
  destruct (IH (totals_step t rec) Hl) as (A & B & C).
  rewrite A, B, C. unfold totals_step, decided, wager_of, pl_of.
  destruct (wasCorrect rec) as [ | | [|] | q]; try discriminate;
    cbn; repeat split.
Qed.

Lemma cohorts_sums (l : list BetRecord) : forall s,
  let s' := fold_left cohorts_step l s in
  (cWagered (topPicks s')
   = fold_left Qplus (map wager_of (top_picks l)) (cWagered (topPicks s)) /\
   cProfitLoss (topPicks s')
   = fold_left Qplus (map pl_of (filter decided (top_picks l)))
               (cProfitLoss (topPicks s)) /\
   cCompletedWager (topPicks s')
   = fold_left Qplus (map wager_of (filter decided (top_picks l)))
               (cCompletedWager (topPicks s))) /\
  (cWagered (otherBets s')
   = fold_left Qplus (map wager_of (other_bets l)) (cWagered (otherBets s)) /\
   cProfitLoss (otherBets s')
   = fold_left Qplus (map pl_of (filter decided (other_bets l)))
               (cProfitLoss (otherBets s)) /\
   cCompletedWager (otherBets s')
   = fold_left Qplus (map wager_of (filter decided (other_bets l)))
               (cCompletedWager (otherBets s))).
Proof.
  induction l as [|rec l IH]; intro s; [repeat split|].
  cbv zeta. cbn [fold_left].
  destruct (IH (cohorts_step s rec)) as ((A1 & A2 & A3) & (B1 & B2 & B3)).
  rewrite A1, A2, A3, B1, B2, B3.
  unfold top_picks, other_bets, cohorts_step, cohort_add, decided,
    wager_of, pl_of.
  cbn [filter].
  destruct (truthy (isTopPick rec)); cbn [negb filter];
    destruct (not_null (wasCorrect rec)); cbn; repeat split.
Qed.

(** C1. Partition law: for every list of records whose [wasCorrect] is
    [true], [false] or [null], the weekly aggregation gives
    overall.X = topPicks.X + otherBets.X, exactly, for the integer fields:
    the count, the wins, the losses and the pending count.  For the
    wagered amount, the profit/loss and the completed wager, the overall
    figure and the two cohort figures are sums of the same amounts: every
    record is in exactly one cohort, and each figure adds, from the left
    and in the order of the list, the amounts of its records (all of them
    for the wagered amount, the completed ones for the two others).  The
    overall figure and the sum of the cohort figures so differ by nothing
    but the order in which the same amounts are added. *)
Theorem partition_law (recommendations : list BetRecord) :
  outcomes_ok recommendations = true ->
  let w := weeklySummary recommendations in
  let top := top_picks recommendations in
  let other := other_bets recommendations in
  (count (overall w) = (count (wTopPicks w) + count (wOtherBets w))%Z /\
   bWins (overall w) = (bWins (wTopPicks w) + bWins (wOtherBets w))%Z /\
   bLosses (overall w)
   = (bLosses (wTopPicks w) + bLosses (wOtherBets w))%Z /\
   pending (overall w)
   = (pending (wTopPicks w) + pending (wOtherBets w))%Z) /\
  Permutation (top ++ other) recommendations /\
  (wagered (overall w) = sum_left (map wager_of recommendations) /\
   wagered (wTopPicks w) = sum_left (map wager_of top) /\
   wagered (wOtherBets w) = sum_left (map wager_of other)) /\
  (bProfitLoss (overall w)
   = sum_left (map pl_of (filter decided recommendations)) /\
   bProfitLoss (wTopPicks w) = sum_left (map pl_of (filter decided top)) /\
   bProfitLoss (wOtherBets w)
   = sum_left (map pl_of (filter decided other))) /\
  (bCompletedWager (overall w)
   = sum_left (map wager_of (filter decided recommendations)) /\
   bCompletedWager (wTopPicks w)
   = sum_left (map wager_of (filter decided top)) /\
   bCompletedWager (wOtherBets w)
   = sum_left (map wager_of (filter decided other))).
Proof.
  intros Hok w top other.
  assert (H0 : partitioned 0 totals0 cohorts0).
  { unfold partitioned; simpl. repeat split; reflexivity. }
  pose proof (partitioned_fold recommendations 0 totals0 cohorts0 Hok H0)
    as (Pc & Pw & Pl & Pp).
  destruct (totals_sums recommendations totals0 Hok) as (T1 & T2 & T3).
  destruct (cohorts_sums recommendations cohorts0)
    as ((A1 & A2 & A3) & (B1 & B2 & B3)).
  split; [|split; [apply cohorts_partition_list|]].
  - repeat split; assumption.
  - repeat split; assumption.
Qed.

Lemma partition_law_witness :
  let w := weeklySummary scenarioA in
  (count (overall w) = (count (wTopPicks w) + count (wOtherBets w))%Z /\
   bWins (overall w) = (bWins (wTopPicks w) + bWins (wOtherBets w))%Z /\
   bLosses (overall w)
   = (bLosses (wTopPicks w) + bLosses (wOtherBets w))%Z /\
   pending (overall w)
   = (pending (wTopPicks w) + pending (wOtherBets w))%Z) /\
  bProfitLoss (wOtherBets w)
  = sum_left (map pl_of (filter decided (other_bets scenarioA))).
Proof.
  destruct (partition_law scenarioA eq_refl) as (A & _ & _ & (_ & _ & B) & _).
  split; [exact A | exact B].
Defined.

(** The typing of [wasCorrect] is needed: one record whose [wasCorrect] is
    absent is pending for the first pass and completed for the second. *)
Lemma partition_law_needs_outcome :
  let w := weeklySummary [mkBet (JNum 10) (JNum 5) JUndefined (JBool true)] in
  pending (overall w) = 1%Z /\
  (pending (wTopPicks w) + pending (wOtherBets w) = 0)%Z /\
  bProfitLoss (overall w) == 0 /\
  bProfitLoss (wTopPicks w) + bProfitLoss (wOtherBets w) == 5.
Proof. vm_compute. repeat split; reflexivity. Qed.

(** C8. Cohort internal consistency: for every list of records whose
    [wasCorrect] is [true], [false] or [null], each of the three weekly
    blocks has wins + losses + pending = count, the four being
    non-negative integers. *)
Theorem blocks_consistent (recommendations : list BetRecord) :
  outcomes_ok recommendations = true ->
  let w := weeklySummary recommendations in
  forall b : Block,
    b = overall w \/ b = wTopPicks w \/ b = wOtherBets w ->
    (bWins b + bLosses b + pending b = count b)%Z /\
    (0 <= bWins b)%Z /\ (0 <= bLosses b)%Z /\
    (0 <= pending b)%Z /\ (0 <= count b)%Z.
Proof.
  intros Hok w b Hb.
  assert (Ht : totals_counted (0 + Z.of_nat (length recommendations))
                              (totals_pass recommendations)).
  { apply totals_counted_fold. unfold totals_counted; simpl; lia. }
  assert (Hc0 : cohort_nonneg cohort0) by (unfold cohort_nonneg; simpl; lia).
  assert (Hk0 : cohort_counted cohort0) by reflexivity.
  destruct (cohorts_nonneg_fold recommendations cohorts0 Hc0 Hc0)
    as [Hnt Hno].
  destruct (cohorts_counted_fold recommendations cohorts0 Hok Hk0 Hk0)
    as [Hkt Hko].
  fold (cohorts_pass recommendations) in Hnt, Hno, Hkt, Hko.
  unfold cohort_nonneg, cohort_counted in *.
  destruct Ht as (Hnn & Hsum).
  destruct Hb as [-> | [-> | ->]]; subst w; simpl; lia.
Qed.

Lemma blocks_consistent_witness :
  let b := wOtherBets (weeklySummary scenarioA) in
  (bWins b + bLosses b + pending b = count b)%Z /\
  (0 <= bWins b)%Z /\ (0 <= bLosses b)%Z /\
  (0 <= pending b)%Z /\ (0 <= count b)%Z.
Proof.
  apply (blocks_consistent scenarioA); [reflexivity|].
  right; right; reflexivity.
Defined.

(** C7. In each of the three weekly blocks, for every input list, the
    pending wager is [Math.max(0, wagered - completedWager)] and is never
    negative.  Nothing is assumed about the records, their order, or the
    sign of the difference the clamp receives. *)
Theorem pendingWager_clamped (recommendations : list BetRecord) (b : Block) :
  In b [overall (weeklySummary recommendations);
        wTopPicks (weeklySummary recommendations);
        wOtherBets (weeklySummary recommendations)] ->
  pendingWager b = Math_max 0 (wagered b - bCompletedWager b) /\
  0 <= pendingWager b.
Proof.
  intros [<- | [<- | [<- | []]]]; simpl;
    (split; [reflexivity | apply Math_max_nonneg]).
Qed.

Lemma pendingWager_clamped_witness :
  let b := overall (weeklySummary scenarioA) in
  pendingWager b = Math_max 0 (wagered b - bCompletedWager b) /\
  0 <= pendingWager b.
Proof.
  apply (pendingWager_clamped scenarioA). left; reflexivity.
Defined.

(** The clamp is not idle in the model: a negative wager on a pending bet
    makes the difference negative, and the pending wager is still 0. *)
Example pendingWager_clamp_used :
  let b := overall (weeklySummary [mkBet (JNum (-10)) JNull JNull JNull]) in
  wagered b - bCompletedWager b == -10 /\ pendingWager b == 0.
Proof. vm_compute. split; reflexivity. Qed.

(** C9. The two weekly passes test completion differently.  The first pass
    takes a record as completed only when [wasCorrect === true] or
    [wasCorrect === false] and as pending otherwise; the second takes it as
    completed whenever [wasCorrect !== null].  So a record whose
    [wasCorrect] is [undefined] is counted as pending by the first pass,
    which leaves its completed wager and profit/loss alone, while the second
    pass adds its wager to the cohort's completed wager and its profit/loss
    to the cohort's total and increments neither wins, losses nor pending. *)
Theorem completion_tests_differ
    (wager pl outcome tp : jsval) (t : Totals) (c : Cohort) (s : Cohorts) :
  let rec := mkBet wager pl outcome tp in
  let undef := mkBet wager pl JUndefined tp in
  (pendingBets (totals_step t rec)
   = if is_true outcome || is_false outcome
     then pendingBets t else (pendingBets t + 1)%Z) /\
  (completedWager (totals_step t rec)
   = if is_true outcome || is_false outcome
     then completedWager t + or_zero wager else completedWager t) /\
  (cPending (cohort_add c rec)
   = if not_null outcome then cPending c else (cPending c + 1)%Z) /\
  (cCompletedWager (cohort_add c rec)
   = if not_null outcome
     then cCompletedWager c + or_zero wager else cCompletedWager c) /\
  totals_step t undef
  = mkTotals (totalWagered t + or_zero wager) (wins t) (losses t)
             (pendingBets t + 1) (totalProfitLoss t) (completedWager t) /\
  cohort_add c undef
  = mkCohort (cCount c + 1) (cWagered c + or_zero wager)
             (cWins c) (cLosses c) (cPending c)
             (cProfitLoss c + or_zero pl)
             (cCompletedWager c + or_zero wager) /\
  cohorts_step s undef
  = if truthy tp
    then mkCohorts (cohort_add (topPicks s) undef) (otherBets s)
    else mkCohorts (topPicks s) (cohort_add (otherBets s) undef).
Proof.
  intros rec undef. subst rec undef.
  unfold totals_step, cohort_add, cohorts_step; cbn [wasCorrect
    recommendedWager profitLoss isTopPick].
  destruct outcome as [ | | [|] | q]; cbn; repeat split; reflexivity.
Qed.

(** C6. Scenario A, as the code computes it: the overall block is
    count 3, wagered 250, wins 1, losses 1, pending 1, profit/loss -50,
    completed wager 200, pending wager 50 and ROI -20 (the profit/loss over
    the whole wagered amount, pending bets included), and the win rate over
    the decided bets is 0.5; the top-picks block is count 1, wagered 100,
    wins 1, losses 0, pending 0, profit/loss 50, ROI 50 and win rate 1. *)
Theorem scenarioA_weekly :
  let w := weeklySummary scenarioA in
  let o := overall w in
  let tp := wTopPicks w in
  (count o = 3%Z /\ wagered o == 250 /\ bWins o = 1%Z /\ bLosses o = 1%Z /\
   pending o = 1%Z /\ bProfitLoss o == -50 /\ bCompletedWager o == 200 /\
   pendingWager o == 50 /\ roi o == -20 /\ roiFormatted o = Some (-20)%Z /\
   calculateWinRate (inject_Z (bWins o))
                    (inject_Z (bWins o) + inject_Z (bLosses o)) == 1 # 2) /\
  (count tp = 1%Z /\ wagered tp == 100 /\ bWins tp = 1%Z /\
   bLosses tp = 0%Z /\ pending tp = 0%Z /\ bProfitLoss tp == 50 /\
   roi tp == 50 /\ roiFormatted tp = Some 50%Z /\
   calculateWinRate (inject_Z (bWins tp))
                    (inject_Z (bWins tp) + inject_Z (bLosses tp)) == 1).
Proof.
  vm_compute.
  repeat match goal with |- _ /\ _ => split end; reflexivity.
Qed.

(** Scenario A does not give the overall ROI of -25 (which is the
    profit/loss over the completed wager only). *)
Lemma scenarioA_roi_is_not_minus_25 :
  ~ (roi (overall (weeklySummary scenarioA)) == -25).
Proof. vm_compute. discriminate. Qed.

(** ** Colouring *)

Lemma weeklyPLClass_classifies (v : Q) :
  weeklyPLClass v = spec_classifySign v.
Proof.
  unfold weeklyPLClass, spec_classifySign.
  destruct (v ?= 0) eqn:C.
  - apply Qeq_alt in C.
    destruct (gt v 0) eqn:G; [apply gt_iff in G; lra|].
    destruct (lt v 0) eqn:L; [apply lt_iff in L; lra|]. reflexivity.
  - apply Qlt_alt in C.
    destruct (gt v 0) eqn:G; [apply gt_iff in G; lra|].
    destruct (lt v 0) eqn:L; [reflexivity|].
    apply lt_iff in C. congruence.
  - apply Qgt_alt in C.
    destruct (gt v 0) eqn:G; [reflexivity|].
    apply gt_iff in C. congruence.
Qed.

Lemma twoWayClass_zero_pivot (v : Q) :
  AllTime.twoWayClass v 0
  = if Qeq_bool v 0 then Positive else spec_classifySign v.
Proof.
  unfold AllTime.twoWayClass, spec_classifySign.
  destruct (Qeq_bool v 0) eqn:E.
  - apply Qeq_bool_iff in E.
    destruct (ge v 0) eqn:G; [reflexivity|].
    assert (H : ge v 0 = true) by (apply ge_iff; lra). congruence.
  - apply Qeq_bool_neq in E.
    destruct (v ?= 0) eqn:C.
    + apply Qeq_alt in C. contradiction.
    + apply Qlt_alt in C.
      destruct (ge v 0) eqn:G; [apply ge_iff in G; lra | reflexivity].
    + apply Qgt_alt in C.
      destruct (ge v 0) eqn:G; [reflexivity|].
      assert (H : ge v 0 = true) by (apply ge_iff; lra). congruence.
Qed.

(** C4. The weekly summary colours each of its three profit/loss figures
    as [classifySign] says: above 0 positive, below 0 negative, 0 without a
    class.  The all-time panel colours its three profit/loss figures in two
    ways only: a figure that is not 0 as [classifySign] says, and 0 as
    positive. *)
Theorem pl_colouring (recommendations : list BetRecord) (data : Data.t) :
  let w := weeklySummary recommendations in
  let p := AllTime.loadPerformanceMetricsInternal data in
  let two_way (v : Q) :=
    if Qeq_bool v 0 then Positive else spec_classifySign v in
  (plClass (overall w) = spec_classifySign (bProfitLoss (overall w)) /\
   plClass (wTopPicks w) = spec_classifySign (bProfitLoss (wTopPicks w)) /\
   plClass (wOtherBets w) = spec_classifySign (bProfitLoss (wOtherBets w))) /\
  (AllTime.totalPLClass p = two_way (AllTime.totalPL p) /\
   AllTime.topPicksPLClass p = two_way (AllTime.topPicksPL p) /\
   AllTime.otherBetsPLClass p = two_way (AllTime.otherBetsPL p)).
Proof.
  intros w p two_way. split.
  - subst w. cbn [weeklySummary overall wTopPicks wOtherBets].
    unfold overall_block, cohort_block. cbn [plClass bProfitLoss].
    repeat split; apply weeklyPLClass_classifies.
  - subst p two_way. unfold AllTime.loadPerformanceMetricsInternal.
    cbn [AllTime.totalPLClass AllTime.topPicksPLClass
         AllTime.otherBetsPLClass AllTime.totalPL AllTime.topPicksPL
         AllTime.otherBetsPL].
    repeat split; apply twoWayClass_zero_pivot.
Qed.

(** With an all-time profit/loss of 0 the panel adds the class [positive],
    where [classifySign] is neutral. *)
Lemma allTime_zero_is_not_neutral :
  let p := AllTime.loadPerformanceMetricsInternal snapshot_even in
  AllTime.totalPL p == 0 /\
  AllTime.totalPLClass p <> spec_classifySign (AllTime.totalPL p).
Proof. vm_compute. split; [reflexivity | discriminate]. Qed.

(** ** The all-time panel and the header *)

Lemma calculateROI_compat (p p' w w' : Q) :
  p == p' -> w == w' -> calculateROI p w == calculateROI p' w'.
Proof.
  intros Hp Hw. unfold calculateROI.
  rewrite (Qeqb_comp w w' Hw 0 0 (Qeq_refl 0)).
  destruct (Qeq_bool w' 0); [reflexivity|].
  now rewrite Hp, Hw.
Qed.

Lemma calculateWinRate_compat (a a' b b' : Q) :
  a == a' -> b == b' -> calculateWinRate a b == calculateWinRate a' b'.
Proof.
  intros Ha Hb. unfold calculateWinRate.
  rewrite (Qeqb_comp b b' Hb 0 0 (Qeq_refl 0)).
  destruct (Qeq_bool b' 0); [reflexivity|].
  now rewrite Ha, Hb.
Qed.

Lemma Math_round_compat (x y : Q) : x == y -> Math_round x = Math_round y.
Proof. intro H. unfold Math_round. now rewrite H. Qed.

(** C5. The all-time panel is a function of the server's snapshot alone
    (the recommendation list is no input of it): the wins are
    [round(winRate * totalBets)] and the win rate shown divides them by
    [totalBets]; the top picks' wins are
    [round(topPicksWinRate * topPicksCount)]; and the other bets come by
    subtraction: their count is [totalBets - topPicksCount], their wager
    [totalWager - topPicksWager], their profit/loss
    [totalProfitLoss - topPicksProfitLoss] and their wins
    [totalWins - topPicksWins]. *)
Theorem allTime_from_snapshot (tb tw pl wr tc tpw tpl twr : Q) :
  let p := AllTime.loadPerformanceMetricsInternal
             (snapshot tb tw pl wr tc tpw tpl twr) in
  AllTime.totalWins p = Math_round (wr * tb) /\
  AllTime.winRate (AllTime.overallMetrics p)
    == calculateWinRate (inject_Z (Math_round (wr * tb))) tb /\
  AllTime.roi (AllTime.overallMetrics p) == calculateROI pl tw /\
  AllTime.topPicksWins p = Math_round (twr * tc) /\
  AllTime.otherBetsCount p == tb - tc /\
  AllTime.otherBetsWager p == tw - tpw /\
  AllTime.otherBetsPL p == pl - tpl /\
  AllTime.otherBetsWins p = (AllTime.totalWins p - AllTime.topPicksWins p)%Z /\
  AllTime.winRate (AllTime.otherBetsMetrics p)
    == calculateWinRate
         (inject_Z (Math_round (wr * tb) - Math_round (twr * tc)))
         (tb - tc) /\
  AllTime.roi (AllTime.otherBetsMetrics p)
    == calculateROI (pl - tpl) (tw - tpw).
Proof.
  intro p. subst p.
  unfold AllTime.loadPerformanceMetricsInternal, snapshot, AllTime.metrics.
  cbn [AllTime.totalWins AllTime.winRate AllTime.roi AllTime.overallMetrics
       AllTime.topPicksWins AllTime.otherBetsCount AllTime.otherBetsWager
       AllTime.otherBetsPL AllTime.otherBetsWins AllTime.otherBetsMetrics
       Data.totalBets Data.totalWager Data.totalProfitLoss Data.winRate
       Data.topPicksCount Data.topPicksWager Data.topPicksProfitLoss
       Data.topPicksWinRate].
  assert (Hw : Math_round (or_zero (JNum wr) * or_zero (JNum tb))
               = Math_round (wr * tb)).
  { apply Math_round_compat. now rewrite !or_zero_num. }
  assert (Ht : Math_round (or_zero (JNum twr) * or_zero (JNum tc))
               = Math_round (twr * tc)).
  { apply Math_round_compat. now rewrite !or_zero_num. }
  rewrite Hw, Ht.
  repeat match goal with |- _ /\ _ => split end;
    try reflexivity;
    try (apply calculateWinRate_compat);
    try (apply calculateROI_compat);
    rewrite ?or_zero_num; reflexivity.
Qed.

(** C10. The header's all-time ROI is taken against the fixed starting
    bankroll of 10000 and not against the total wagered: it is
    [((10000 + totalProfitLoss - 10000) / 10000) * 100], evaluated in that
    order, whatever the snapshot's [totalWager] and other fields are (and
    NaN when [totalProfitLoss] is absent).  The panel's ROI,
    [calculateROI(totalPL, totalWager)], is another formula: on a snapshot
    with profit/loss 50 over a wager of 200 the header has 0.5 and the
    panel 25. *)
Theorem header_roi_on_bankroll (data : Data.t) :
  Header.startingBankroll = 10000 /\
  match ToNumber (Data.totalProfitLoss data) with
  | Some pl =>
      Header.overallROI (Header.compute data)
      = Some (((10000 + pl - 10000) / 10000) * 100)
  | None => Header.overallROI (Header.compute data) = None
  end /\
  (forall tw : jsval,
     Header.overallROI
       (Header.compute
          (Data.mk (Data.totalBets data) tw (Data.totalProfitLoss data)
                   (Data.winRate data) (Data.topPicksCount data)
                   (Data.topPicksWager data) (Data.topPicksProfitLoss data)
                   (Data.topPicksWinRate data)))
     = Header.overallROI (Header.compute data)) /\
  (let d := snapshot 10 200 50 (1 # 2) 4 80 20 (1 # 2) in
   exists h, Header.overallROI (Header.compute d) = Some h /\
             h == 1 # 2 /\
             AllTime.roi (AllTime.overallMetrics
                            (AllTime.loadPerformanceMetricsInternal d)) == 25).
Proof.
  split; [reflexivity|]. split; [|split].
  - unfold Header.compute, Header.bind. cbn [Header.overallROI].
    destruct (ToNumber (Data.totalProfitLoss data)) as [pl|]; reflexivity.
  - intro tw. reflexivity.
  - eexists. split; [reflexivity|]. vm_compute. split; reflexivity.
Qed.

Module HeaderOnDoubles.

Import PrimFloat.

(** For an all-time profit/loss of 2850 the header's ROI, as the code
    computes it on doubles, is not [2850 / 100]: it is
    28.499999999999996 where the quotient is 28.5. *)
Lemma header_roi_is_not_a_hundredth :
  Double.strict_eq (Double.overallROI 2850) (2850 / 100) = false /\
  PrimFloat.ltb (Double.overallROI 2850) (2850 / 100) = true /\
  Double.strict_eq (2850 / 100) (57 / 2) = true.
Proof. vm_compute. repeat split. Qed.

End HeaderOnDoubles.

(** ** Rounding *)

Lemma Qfloor_unique (y : Q) (n : Z) :
  inject_Z n <= y -> y < inject_Z n + 1 -> Qfloor y = n.
Proof.
  intros Hlo Hhi.
  pose proof (Qfloor_le y) as Fl.
  pose proof (Qlt_floor y) as Fh.
  rewrite inject_Z_plus in Fh. change (inject_Z 1) with 1 in Fh.
  assert (A : inject_Z (Qfloor y) < inject_Z (n + 1)).
  { rewrite inject_Z_plus. change (inject_Z 1) with 1. lra. }
  assert (B : inject_Z n < inject_Z (Qfloor y + 1)).
  { rewrite inject_Z_plus. change (inject_Z 1) with 1. lra. }
  rewrite <- Zlt_Qlt in A, B. lia.
Qed.

Lemma Math_round_bounds (x : Q) :
  inject_Z (Math_round x) - (1 # 2) <= x /\
  x < inject_Z (Math_round x) + (1 # 2).
Proof.
  unfold Math_round.
  pose proof (Qfloor_le (x + (1 # 2))) as Fl.
  pose proof (Qlt_floor (x + (1 # 2))) as Fh.
  rewrite inject_Z_plus in Fh. change (inject_Z 1) with 1 in Fh.
  split; lra.
Qed.

Lemma Math_round_Z (k : Z) : Math_round (inject_Z k) = k.
Proof. unfold Math_round. apply Qfloor_unique; lra. Qed.

Lemma Math_round_half (k : Z) :
  Math_round (inject_Z k + (1 # 2)) = (k + 1)%Z.
Proof.
  unfold Math_round. apply Qfloor_unique;
    rewrite inject_Z_plus; change (inject_Z 1) with 1; lra.
Qed.

(** X1. [formatROI] gives no percentage exactly when the wager is 0, and
    otherwise an integer within half a point of the ROI
    [(profitLoss / wager) * 100]. *)
Theorem formatROI_shown (p w : Q) :
  (formatROI p w = None <-> w == 0) /\
  (forall n : Z,
     formatROI p w = Some n ->
     inject_Z n - (1 # 2) <= (p / w) * 100 /\
     (p / w) * 100 < inject_Z n + (1 # 2)).
Proof.
  unfold formatROI, calculateROI.
  destruct (Qeq_bool w 0) eqn:E.
  - apply Qeq_bool_iff in E. split; [tauto | discriminate].
  - apply Qeq_bool_neq in E. split.
    + split; [discriminate | contradiction].
    + intros n H. injection H as <-. apply Math_round_bounds.
Qed.

Lemma formatROI_shown_witness :
  inject_Z (-20) - (1 # 2) <= (-50 / 250) * 100 /\
  (-50 / 250) * 100 < inject_Z (-20) + (1 # 2).
Proof.
  apply (proj2 (formatROI_shown (-50) 250) (-20)%Z). reflexivity.
Defined.

(** X2. [formatPercentage] shows the integer nearest to the product
    [value * 100], within half a point of it, and a product that lies
    halfway between two integers is rounded up, also below zero: a product
    of 2.5 is shown as 3% and a product of -2.5 as -2%. *)
Theorem formatPercentage_ties (value : Q) (k : Z) :
  (inject_Z (formatPercentage value) - (1 # 2) <= value * 100 /\
   value * 100 < inject_Z (formatPercentage value) + (1 # 2)) /\
  (value * 100 == inject_Z k -> formatPercentage value = k) /\
  (value * 100 == inject_Z k + (1 # 2) ->
   formatPercentage value = (k + 1)%Z).
Proof.
  unfold formatPercentage. split; [apply Math_round_bounds|]. split.
  - intro H. transitivity (Math_round (inject_Z k));
      [now apply Math_round_compat | apply Math_round_Z].
  - intro H. transitivity (Math_round (inject_Z k + (1 # 2)));
      [now apply Math_round_compat | apply Math_round_half].
Qed.

Lemma formatPercentage_ties_witness :
  formatPercentage (1 # 40) = 3%Z /\ formatPercentage (- (1 # 40)) = (-2)%Z.
Proof.
  split.
  - apply (proj2 (proj2 (formatPercentage_ties (1 # 40) 2))). reflexivity.
  - apply (proj2 (proj2 (formatPercentage_ties (- (1 # 40)) (-3)))).
    reflexivity.
Defined.

(** X3. The percentage beside a profit/loss figure,
    [formatCurrencyWithPercentage(pl, formatROI(pl, wager))], is left out
    exactly when the wager is 0 or the profit/loss is 0, and is otherwise
    the rounded ROI. *)
Theorem percentage_span_shown (pl wager : Q) :
  let shown := formatCurrencyWithPercentage pl (formatROI pl wager) in
  fst shown = pl /\
  (snd shown = None <-> wager == 0 \/ pl == 0) /\
  (~ wager == 0 -> ~ pl == 0 ->
   snd shown = Some (Math_round ((pl / wager) * 100))).
Proof.
  unfold formatCurrencyWithPercentage, formatROI, calculateROI. cbn [fst snd].
  split; [reflexivity|].
  destruct (Qeq_bool wager 0) eqn:Ew.
  - apply Qeq_bool_iff in Ew. split; [tauto | intros; contradiction].
  - apply Qeq_bool_neq in Ew. destruct (Qeq_bool pl 0) eqn:Ep.
    + apply Qeq_bool_iff in Ep. split; [tauto | intros; contradiction].
    + apply Qeq_bool_neq in Ep. split; [|reflexivity].
      split; [discriminate | tauto].
Qed.

Lemma percentage_span_shown_witness :
  snd (formatCurrencyWithPercentage (-50) (formatROI (-50) 250))
  = Some (Math_round ((-50 / 250) * 100)).
Proof.
  apply (proj2 (proj2 (percentage_span_shown (-50) 250))); discriminate.
Defined.

(** ** The counters do not depend on the order of the list *)

Ltac fields :=
  repeat match goal with |- _ /\ _ => split end;
  simpl; try reflexivity; try lia; try lra.

Lemma Totals_equiv_refl (t : Totals) : Totals_equiv t t.
Proof. unfold Totals_equiv. fields. Qed.

Lemma Totals_equiv_trans (a b c : Totals) :
  Totals_equiv a b -> Totals_equiv b c -> Totals_equiv a c.
Proof.
  unfold Totals_equiv.
  intros (A1 & A2 & A3) (B1 & B2 & B3).
  fields.
Qed.

Lemma totals_step_equiv (a b : Totals) (rec : BetRecord) :
  Totals_equiv a b -> Totals_equiv (totals_step a rec) (totals_step b rec).
Proof.
  unfold Totals_equiv, totals_step.
  intros (A1 & A2 & A3).
  destruct (is_true (wasCorrect rec));
    [|destruct (is_false (wasCorrect rec))]; fields.
Qed.

Lemma totals_step_comm (t : Totals) (x y : BetRecord) :
  Totals_equiv (totals_step (totals_step t x) y)
               (totals_step (totals_step t y) x).
Proof.
  unfold Totals_equiv, totals_step.
  destruct (is_true (wasCorrect x)), (is_false (wasCorrect x)),
    (is_true (wasCorrect y)), (is_false (wasCorrect y)); fields.
Qed.

Lemma totals_fold_equiv (l : list BetRecord) : forall a b,
  Totals_equiv a b ->
  Totals_equiv (fold_left totals_step l a) (fold_left totals_step l b).
Proof.
  induction l as [|rec l IH]; intros a b H; [exact H|].
  cbn [fold_left]. apply IH. now apply totals_step_equiv.
Qed.

Lemma totals_fold_perm (l l' : list BetRecord) :
  Permutation l l' ->
  forall t, Totals_equiv (fold_left totals_step l t)
                         (fold_left totals_step l' t).
Proof.
  induction 1 as [| x l l' _ IH | x y l | l l' l'' _ IH1 _ IH2]; intro t.
  - apply Totals_equiv_refl.
  - cbn [fold_left]. apply IH.
  - cbn [fold_left]. apply totals_fold_equiv, totals_step_comm.
  - eapply Totals_equiv_trans; [apply IH1 | apply IH2].
Qed.

Lemma Cohort_equiv_refl (c : Cohort) : Cohort_equiv c c.
Proof. unfold Cohort_equiv. fields. Qed.

Lemma Cohort_equiv_trans (a b c : Cohort) :
  Cohort_equiv a b -> Cohort_equiv b c -> Cohort_equiv a c.
Proof.
  unfold Cohort_equiv.
  intros (A1 & A2 & A3 & A4) (B1 & B2 & B3 & B4).
  fields.
Qed.

Lemma cohort_add_equiv (a b : Cohort) (rec : BetRecord) :
  Cohort_equiv a b -> Cohort_equiv (cohort_add a rec) (cohort_add b rec).
Proof.
  unfold Cohort_equiv, cohort_add.
  intros (A1 & A2 & A3 & A4).
  destruct (not_null (wasCorrect rec)), (is_true (wasCorrect rec)),
    (is_false (wasCorrect rec)); fields.
Qed.

Lemma cohort_add_comm (c : Cohort) (x y : BetRecord) :
  Cohort_equiv (cohort_add (cohort_add c x) y)
               (cohort_add (cohort_add c y) x).
Proof.
  unfold Cohort_equiv, cohort_add.
  destruct (not_null (wasCorrect x)), (is_true (wasCorrect x)),
    (is_false (wasCorrect x)), (not_null (wasCorrect y)),
    (is_true (wasCorrect y)), (is_false (wasCorrect y)); fields.
Qed.

Lemma cohorts_step_equiv (a b : Cohorts) (rec : BetRecord) :
  Cohorts_equiv a b ->
  Cohorts_equiv (cohorts_step a rec) (cohorts_step b rec).
Proof.
  unfold Cohorts_equiv, cohorts_step. intros [Ht Ho].
  destruct (truthy (isTopPick rec)); cbn [topPicks otherBets];
    split; auto using cohort_add_equiv.
Qed.

Lemma cohorts_step_comm (s : Cohorts) (x y : BetRecord) :
  Cohorts_equiv (cohorts_step (cohorts_step s x) y)
                (cohorts_step (cohorts_step s y) x).
Proof.
  unfold Cohorts_equiv, cohorts_step.
  destruct (truthy (isTopPick x)), (truthy (isTopPick y));
    cbn [topPicks otherBets];
    split; auto using cohort_add_comm, Cohort_equiv_refl.
Qed.

Lemma cohorts_fold_equiv (l : list BetRecord) : forall a b,
  Cohorts_equiv a b ->
  Cohorts_equiv (fold_left cohorts_step l a) (fold_left cohorts_step l b).
Proof.
  induction l as [|rec l IH]; intros a b H; [exact H|].
  cbn [fold_left]. apply IH. now apply cohorts_step_equiv.
Qed.

Lemma cohorts_fold_perm (l l' : list BetRecord) :
  Permutation l l' ->
  forall s, Cohorts_equiv (fold_left cohorts_step l s)
                          (fold_left cohorts_step l' s).
Proof.
  induction 1 as [| x l l' _ IH | x y l | l l' l'' _ IH1 _ IH2]; intro s.
  - split; apply Cohort_equiv_refl.
  - cbn [fold_left]. apply IH.
  - cbn [fold_left]. apply cohorts_fold_equiv, cohorts_step_comm.
  - destruct (IH1 s) as [A1 A2]. destruct (IH2 s) as [B1 B2].
    split; eapply Cohort_equiv_trans; eassumption.
Qed.

Lemma Math_max_compat (a b : Q) : a == b -> Math_max 0 a == Math_max 0 b.
Proof.
  intro H. unfold Math_max.
  rewrite (Qleb_comp 0 0 (Qeq_refl 0) a b H).
  destruct (Qle_bool 0 b); [exact H | reflexivity].
Qed.

(** X4. The counters of the weekly summary do not depend on the order of
    the recommendations: for two lists that are permutations of each other
    the overall, top-picks and other-bets blocks show the same count, wins,
    losses, pending count and asterisk. *)
Theorem weeklySummary_order (l l' : list BetRecord) :
  Permutation l l' ->
  same_counters (overall (weeklySummary l)) (overall (weeklySummary l')) /\
  same_counters (wTopPicks (weeklySummary l))
                (wTopPicks (weeklySummary l')) /\
  same_counters (wOtherBets (weeklySummary l))
                (wOtherBets (weeklySummary l')).
Proof.
  intro P.
  destruct (cohorts_fold_perm l l' P cohorts0)
    as [(A1 & A3 & A4 & A5) (B1 & B3 & B4 & B5)].
  pose proof (totals_fold_perm l l' P totals0) as (T2 & T3 & T4).
  fold (cohorts_pass l) in *. fold (cohorts_pass l') in *.
  fold (totals_pass l) in *. fold (totals_pass l') in *.
  unfold same_counters.
  cbn [weeklySummary overall wTopPicks wOtherBets].
  unfold overall_block, cohort_block.
  cbn [count bWins bLosses pending asterisk].
  rewrite (Permutation_length P), T2, T3, T4, A1, A3, A4, A5, B1, B3, B4, B5.
  repeat split.
Qed.

Lemma weeklySummary_order_witness :
  same_counters (overall (weeklySummary scenarioA))
                (overall (weeklySummary (rev scenarioA))) /\
  same_counters (wTopPicks (weeklySummary scenarioA))
                (wTopPicks (weeklySummary (rev scenarioA))) /\
  same_counters (wOtherBets (weeklySummary scenarioA))
                (wOtherBets (weeklySummary (rev scenarioA))).
Proof.
  apply (weeklySummary_order scenarioA (rev scenarioA)).
  apply Permutation_rev.
Defined.

(** ** Open bets, wagers and the asterisk *)

Lemma totals_open_fold (l : list BetRecord) : forall t,
  all_open l = true ->
  let t' := fold_left totals_step l t in
  wins t' = wins t /\ losses t' = losses t /\
  pendingBets t' = (pendingBets t + Z.of_nat (length l))%Z /\
  totalProfitLoss t' = totalProfitLoss t /\
  completedWager t' = completedWager t.
Proof.
  induction l as [|rec l IH]; intros t H.
  - cbn. fields.
  - cbn [all_open forallb] in H. apply andb_true_iff in H as [Hr Hl].
    cbn [fold_left]. destruct (IH (totals_step t rec) Hl)
      as (A1 & A2 & A3 & A4 & A5).
    cbv zeta. rewrite A1, A2, A3, A4, A5.
    unfold totals_step. destruct (wasCorrect rec); try discriminate.
    cbn. fields.
Qed.

Lemma cohorts_open_fold (l : list BetRecord) : forall s,
  all_open l = true ->
  let s' := fold_left cohorts_step l s in
  let same (c c' : Cohort) :=
    cWins c' = cWins c /\ cLosses c' = cLosses c /\
    (cPending c' - cCount c' = cPending c - cCount c)%Z /\
    cProfitLoss c' = cProfitLoss c /\
    cCompletedWager c' = cCompletedWager c in
  same (topPicks s) (topPicks s') /\ same (otherBets s) (otherBets s').
Proof.
  induction l as [|rec l IH]; intros s H.
  - cbn. fields.
  - cbn [all_open forallb] in H. apply andb_true_iff in H as [Hr Hl].
    cbn [fold_left]. cbv zeta.
    destruct (IH (cohorts_step s rec) Hl)
      as ((A1 & A2 & A3 & A4 & A5) & (B1 & B2 & B3 & B4 & B5)).
    rewrite A1, A2, A3, A4, A5, B1, B2, B3, B4, B5.
    unfold cohorts_step, cohort_add.
    destruct (wasCorrect rec); try discriminate.
    destruct (truthy (isTopPick rec)); cbn; fields.
Qed.

(** X5. A week in which every bet is still open (and so the empty week):
    each of the three blocks has no win and no loss, all its bets pending,
    completed wager 0 and profit/loss 0, which gets no colour class and no
    percentage; the whole wagered amount, clamped at 0, is at risk. *)
Theorem open_week (recommendations : list BetRecord) (b : Block) :
  all_open recommendations = true ->
  In b [overall (weeklySummary recommendations);
        wTopPicks (weeklySummary recommendations);
        wOtherBets (weeklySummary recommendations)] ->
  bWins b = 0%Z /\ bLosses b = 0%Z /\ pending b = count b /\
  bCompletedWager b == 0 /\ bProfitLoss b == 0 /\
  pendingWager b == Math_max 0 (wagered b) /\
  plClass b = NoClass /\ snd (plShown b) = None.
Proof.
  intros Hopen Hb.
  pose proof (totals_open_fold recommendations totals0 Hopen)
    as (T1 & T2 & T3 & T4 & T5).
  pose proof (cohorts_open_fold recommendations cohorts0 Hopen)
    as ((A1 & A2 & A3 & A4 & A5) & (B1 & B2 & B3 & B4 & B5)).
  fold (totals_pass recommendations) in T1, T2, T3, T4, T5.
  fold (cohorts_pass recommendations) in A1, A2, A3, A4, A5,
    B1, B2, B3, B4, B5.
  cbn in T1, T2, T3, T4, T5, A1, A2, A3, A4, A5, B1, B2, B3, B4, B5.
  assert (G : forall c w pl cw,
             pl = 0 -> cw = 0 ->
             cw == 0 /\ pl == 0 /\
             Math_max 0 (w - cw) == Math_max 0 w /\
             weeklyPLClass pl = NoClass /\
             snd (formatCurrencyWithPercentage pl c) = None).
  { intros c w pl cw -> ->.
    repeat split; try reflexivity.
    - apply Math_max_compat. lra.
    - destruct c; reflexivity. }
  destruct Hb as [<- | [<- | [<- | []]]];
    cbn [weeklySummary overall wTopPicks wOtherBets];
    unfold overall_block, cohort_block, plShown;
    cbn [bWins bLosses pending count bCompletedWager bProfitLoss
         pendingWager wagered plClass roiFormatted];
    (split; [assumption | split; [assumption | split; [lia|]]]);
    apply G; assumption.
Qed.

Lemma open_week_witness :
  let b := overall (weeklySummary [mkBet (JNum 50) JNull JNull JNull]) in
  bWins b = 0%Z /\ bLosses b = 0%Z /\ pending b = count b /\
  bCompletedWager b == 0 /\ bProfitLoss b == 0 /\
  pendingWager b == Math_max 0 (wagered b) /\
  plClass b = NoClass /\ snd (plShown b) = None.
Proof.
  apply (open_week [mkBet (JNum 50) JNull JNull JNull]);
    [reflexivity | left; reflexivity].
Defined.

Lemma totals_wager_fold (l : list BetRecord) : forall t,
  wagers_nonneg l = true ->
  0 <= completedWager t <= totalWagered t ->
  0 <= completedWager (fold_left totals_step l t)
    <= totalWagered (fold_left totals_step l t).
Proof.
  induction l as [|rec l IH]; intros t H Ht; [exact Ht|].
  cbn [wagers_nonneg forallb] in H. apply andb_true_iff in H as [Hr Hl].
  apply Qle_bool_iff in Hr.
  cbn [fold_left]. apply IH; [exact Hl|].
  unfold totals_step.
  destruct (is_true (wasCorrect rec));
    [|destruct (is_false (wasCorrect rec))]; cbn; split; lra.
Qed.

Lemma cohorts_wager_fold (l : list BetRecord) : forall s,
  wagers_nonneg l = true ->
  0 <= cCompletedWager (topPicks s) <= cWagered (topPicks s) ->
  0 <= cCompletedWager (otherBets s) <= cWagered (otherBets s) ->
  let s' := fold_left cohorts_step l s in
  0 <= cCompletedWager (topPicks s') <= cWagered (topPicks s') /\
  0 <= cCompletedWager (otherBets s') <= cWagered (otherBets s').
Proof.
  induction l as [|rec l IH]; intros s H Ht Ho; [split; assumption|].
  cbn [wagers_nonneg forallb] in H. apply andb_true_iff in H as [Hr Hl].
  apply Qle_bool_iff in Hr.
  cbn [fold_left]. cbv zeta. apply IH; [exact Hl | |];
    unfold cohorts_step, cohort_add;
    destruct (truthy (isTopPick rec)), (not_null (wasCorrect rec));
    cbn; split; lra.
Qed.

Lemma Math_max_idle (x : Q) : 0 <= x -> Math_max 0 x = x.
Proof.
  intro H. unfold Math_max. apply Qle_bool_iff in H. now rewrite H.
Qed.

(** X6. When no wager of the week is negative, each of the three blocks
    has 0 <= completed wager <= wagered amount, and the clamp of the
    pending wager is idle: the pending wager is the wagered amount minus
    the completed wager. *)
Theorem wager_split (recommendations : list BetRecord) (b : Block) :
  wagers_nonneg recommendations = true ->
  In b [overall (weeklySummary recommendations);
        wTopPicks (weeklySummary recommendations);
        wOtherBets (weeklySummary recommendations)] ->
  0 <= bCompletedWager b /\ bCompletedWager b <= wagered b /\
  pendingWager b = wagered b - bCompletedWager b.
Proof.
  intros Hw Hb.
  assert (Z0 : 0 <= 0 <= 0) by (split; apply Qle_refl).
  pose proof (totals_wager_fold recommendations totals0 Hw Z0) as T.
  pose proof (cohorts_wager_fold recommendations cohorts0 Hw Z0 Z0)
    as [A B].
  fold (totals_pass recommendations) in T.
  fold (cohorts_pass recommendations) in A, B.
  destruct Hb as [<- | [<- | [<- | []]]];
    cbn [weeklySummary overall wTopPicks wOtherBets];
    unfold overall_block, cohort_block;
    cbn [bCompletedWager wagered pendingWager];
    (rewrite Math_max_idle by lra); repeat split; try lra; reflexivity.
Qed.

Lemma wager_split_witness :
  let b := wOtherBets (weeklySummary scenarioA) in
  0 <= bCompletedWager b /\ bCompletedWager b <= wagered b /\
  pendingWager b = wagered b - bCompletedWager b.
Proof.
  apply (wager_split scenarioA); [reflexivity | right; right; left; reflexivity].
Defined.

Lemma pendingBets_fold (l : list BetRecord) : forall t,
  pendingBets (fold_left totals_step l t)
  = (pendingBets t + Z.of_nat (length (filter counted_pending l)))%Z.
Proof.
  induction l as [|rec l IH]; intro t; [cbn; lia|].
  cbn [fold_left filter]. rewrite IH.
  unfold totals_step, counted_pending.
  destruct (is_true (wasCorrect rec));
    [|destruct (is_false (wasCorrect rec))]; cbn; lia.
Qed.

(** X7. The asterisk after the week's W-L record is shown exactly when
    some recommendation of the list is counted as pending, that is, has a
    [wasCorrect] that is neither [true] nor [false]. *)
Theorem asterisk_iff_pending (recommendations : list BetRecord) :
  asterisk (overall (weeklySummary recommendations)) = true <->
  exists rec, In rec recommendations /\
              is_true (wasCorrect rec) = false /\
              is_false (wasCorrect rec) = false.
Proof.
  cbn [weeklySummary overall]. unfold overall_block. cbn [asterisk].
  unfold totals_pass. rewrite pendingBets_fold. cbn [pendingBets totals0].
  rewrite Z.gtb_lt.
  split.
  - intro H.
    destruct (filter counted_pending recommendations) as [|rec rest] eqn:F;
      [cbn in H; lia|].
    assert (I : In rec (filter counted_pending recommendations))
      by (rewrite F; now left).
    apply filter_In in I as [I C]. exists rec. split; [exact I|].
    unfold counted_pending in C. apply andb_true_iff in C as [C1 C2].
    now rewrite negb_true_iff in C1, C2.
  - intros (rec & I & C1 & C2).
    assert (J : In rec (filter counted_pending recommendations)).
    { apply filter_In. split; [exact I|].
      unfold counted_pending. now rewrite C1, C2. }
    destruct (filter counted_pending recommendations); [contradiction|].
    cbn [length]. lia.
Qed.

(** ** The cards and the summary *)

Lemma badges_cons (b : OutcomeBadge) (rec : BetRecord) (l : list BetRecord) :
  badges b (rec :: l)
  = ((match b, outcomeBadge rec with
      | BadgeWin, BadgeWin | BadgeLoss, BadgeLoss
      | BadgePending, BadgePending => 1
      | _, _ => 0
      end) + badges b l)%Z.
Proof.
  unfold badges. cbn [filter].
  destruct b, (outcomeBadge rec); cbn [length]; lia.
Qed.

Lemma totals_badges_fold (l : list BetRecord) : forall t,
  outcomes_ok l = true ->
  let t' := fold_left totals_step l t in
  wins t' = (wins t + badges BadgeWin l)%Z /\
  losses t' = (losses t + badges BadgeLoss l)%Z /\
  pendingBets t' = (pendingBets t + badges BadgePending l)%Z.
Proof.
  induction l as [|rec l IH]; intros t H.
  - cbn. lia.
  - cbn [outcomes_ok forallb] in H. apply andb_true_iff in H as [Hr Hl].
    cbn [fold_left]. cbv zeta.
    destruct (IH (totals_step t rec) Hl) as (A1 & A2 & A3).
    rewrite A1, A2, A3, !badges_cons.
    unfold totals_step, outcomeBadge.
    destruct (wasCorrect rec) as [ | | [|] | q]; try discriminate;
      cbn [is_true is_false not_null truthy wins losses pendingBets]; lia.
Qed.

(** X8. The cards and the weekly summary agree on the outcomes: when every
    [wasCorrect] is [true], [false] or [null], the number of WIN badges is
    the summary's wins, the number of LOSS badges its losses and the number
    of PENDING badges its pending bets. *)
Theorem badges_match_summary (recommendations : list BetRecord) :
  outcomes_ok recommendations = true ->
  let o := overall (weeklySummary recommendations) in
  badges BadgeWin recommendations = bWins o /\
  badges BadgeLoss recommendations = bLosses o /\
  badges BadgePending recommendations = pending o.
Proof.
  intros H o.
  destruct (totals_badges_fold recommendations totals0 H) as (A1 & A2 & A3).
  subst o. cbn [weeklySummary overall]. unfold overall_block.
  cbn [bWins bLosses pending]. unfold totals_pass.
  rewrite A1, A2, A3. cbn. lia.
Qed.

Lemma badges_match_summary_witness :
  let o := overall (weeklySummary scenarioA) in
  badges BadgeWin scenarioA = bWins o /\
  badges BadgeLoss scenarioA = bLosses o /\
  badges BadgePending scenarioA = pending o.
Proof. apply (badges_match_summary scenarioA). reflexivity. Defined.

(** X9. A recommendation whose [wasCorrect] is absent gets the LOSS badge
    and its wager shown as lost on its card, while the weekly summary
    counts it as pending and not as a loss. *)
Theorem absent_outcome_card_and_summary
    (wager pl tp : jsval) (recommendations : list BetRecord) :
  let rec := mkBet wager pl JUndefined tp in
  let before := overall (weeklySummary recommendations) in
  let after := overall (weeklySummary (recommendations ++ [rec])) in
  outcomeBadge rec = BadgeLoss /\
  betMetric rec = WagerLost wager /\
  bLosses after = bLosses before /\
  bWins after = bWins before /\
  pending after = (pending before + 1)%Z.
Proof.
  cbv zeta. cbn [weeklySummary overall]. unfold overall_block.
  cbn [bLosses bWins pending]. unfold totals_pass.
  rewrite fold_left_app. cbn [fold_left].
  repeat split.
Qed.

(** ** The sections of cards *)

Lemma forEach_indexed_card (flag : bool) (l : list BetRecord) : forall i,
  forEach_indexed
    (fun rec index => createRecommendationCard rec index flag) i l
  = map (fun rec => mkCard flag (outcomeBadge rec) (betMetric rec)) l.
Proof.
  induction l as [|rec l IH]; intro i; [reflexivity|].
  cbn [forEach_indexed map]. now rewrite IH.
Qed.

Lemma cCount_fold (l : list BetRecord) : forall s,
  let s' := fold_left cohorts_step l s in
  cCount (topPicks s')
  = (cCount (topPicks s)
     + Z.of_nat (length (filter (fun rec => truthy (isTopPick rec)) l)))%Z /\
  cCount (otherBets s')
  = (cCount (otherBets s)
     + Z.of_nat
         (length (filter (fun rec => negb (truthy (isTopPick rec))) l)))%Z.
Proof.
  induction l as [|rec l IH]; intro s; [cbn; lia|].
  cbn [fold_left filter]. cbv zeta.
  destruct (IH (cohorts_step s rec)) as [A B]. rewrite A, B.
  unfold cohorts_step, cohort_add.
  destruct (truthy (isTopPick rec)), (not_null (wasCorrect rec));
    cbn; lia.
Qed.

(** X10. [displayRecommendations] shows the "no recommendations" message
    exactly for the empty list.  Otherwise the TOP PICKS section holds one
    card for each recommendation with a truthy [isTopPick], in the order of
    the list and with the top-pick badge, and the OTHER BETS section one
    card for each of the others, without the badge; so every
    recommendation has exactly one card, and the sections hold as many
    cards as the weekly summary counts top picks and other bets. *)
Theorem display_sections (recommendations : list BetRecord) :
  let d := displayRecommendations recommendations in
  let w := weeklySummary recommendations in
  (d = NoRecommendations <-> recommendations = []) /\
  cards_of TOP_PICKS d
  = map (fun rec => mkCard true (outcomeBadge rec) (betMetric rec))
        (filter (fun rec => truthy (isTopPick rec)) recommendations) /\
  cards_of OTHER_BETS d
  = map (fun rec => mkCard false (outcomeBadge rec) (betMetric rec))
        (filter (fun rec => negb (truthy (isTopPick rec))) recommendations) /\
  Z.of_nat (length (cards_of TOP_PICKS d)) = count (wTopPicks w) /\
  Z.of_nat (length (cards_of OTHER_BETS d)) = count (wOtherBets w) /\
  (length (cards_of TOP_PICKS d) + length (cards_of OTHER_BETS d)
   = length recommendations)%nat.
Proof.
  intros d w.
  assert (E1 : (d = NoRecommendations <-> recommendations = [])).
  { subst d. unfold displayRecommendations.
    destruct recommendations as [|rec l]; cbn [length Nat.eqb].
    - tauto.
    - split; discriminate. }
  assert (E2 : cards_of TOP_PICKS d
    = map (fun rec => mkCard true (outcomeBadge rec) (betMetric rec))
          (filter (fun rec => truthy (isTopPick rec)) recommendations)).
  { subst d. unfold displayRecommendations.
    destruct recommendations as [|rec l]; [reflexivity|].
    cbn [length Nat.eqb].
    set (tp := filter (fun rec => truthy (isTopPick rec)) (rec :: l)).
    set (ob := filter (fun rec => negb (truthy (isTopPick rec))) (rec :: l)).
    destruct tp as [|a tp'], ob as [|b ob'];
      cbn [length Nat.ltb Nat.leb app cards_of flat_map fst snd map];
      rewrite ?forEach_indexed_card, ?app_nil_r; reflexivity. }
  assert (E3 : cards_of OTHER_BETS d
    = map (fun rec => mkCard false (outcomeBadge rec) (betMetric rec))
          (filter (fun rec => negb (truthy (isTopPick rec)))
                  recommendations)).
  { subst d. unfold displayRecommendations.
    destruct recommendations as [|rec l]; [reflexivity|].
    cbn [length Nat.eqb].
    set (tp := filter (fun rec => truthy (isTopPick rec)) (rec :: l)).
    set (ob := filter (fun rec => negb (truthy (isTopPick rec))) (rec :: l)).
    destruct tp as [|a tp'], ob as [|b ob'];
      cbn [length Nat.ltb Nat.leb app cards_of flat_map fst snd map];
      rewrite ?forEach_indexed_card, ?app_nil_r; reflexivity. }
  destruct (cCount_fold recommendations cohorts0) as [C1 C2].
  fold (cohorts_pass recommendations) in C1, C2.
  cbn [cohorts0 topPicks otherBets cohort0 cCount] in C1, C2.
  split; [exact E1|]. split; [exact E2|]. split; [exact E3|].
  rewrite E2, E3, !length_map.
  subst w. cbn [weeklySummary wTopPicks wOtherBets]. unfold cohort_block.
  cbn [count]. rewrite C1, C2.
  split; [lia|]. split; [lia|].
  clear. induction recommendations as [|rec l IH]; [reflexivity|].
  cbn [filter]. destruct (truthy (isTopPick rec)); cbn [negb length]; lia.
Qed.

(** ** The all-time panel *)

Lemma inject_Z_sub (a b : Z) : inject_Z (a - b) == inject_Z a - inject_Z b.
Proof.
  unfold Z.sub. rewrite inject_Z_plus, inject_Z_opp. reflexivity.
Qed.

(** X11. In the all-time panel the numbers of bets, the wins and the
    losses of the top picks and of the other bets add up to the totals for
    every snapshot, missing fields included; and in each of the three rows
    wins + losses is the row's number of bets. *)
Theorem allTime_partition (data : Data.t) :
  let p := AllTime.loadPerformanceMetricsInternal data in
  AllTime.topPicksCount p + AllTime.otherBetsCount p
    == AllTime.totalBetsShown p /\
  (AllTime.topPicksWins p + AllTime.otherBetsWins p
   = AllTime.totalWins p)%Z /\
  AllTime.topPicksLosses p + AllTime.otherBetsLosses p
    == AllTime.totalLosses p /\
  inject_Z (AllTime.totalWins p) + AllTime.totalLosses p
    == AllTime.totalBetsShown p /\
  inject_Z (AllTime.topPicksWins p) + AllTime.topPicksLosses p
    == AllTime.topPicksCount p /\
  inject_Z (AllTime.otherBetsWins p) + AllTime.otherBetsLosses p
    == AllTime.otherBetsCount p.
Proof.
  intro p. subst p. unfold AllTime.loadPerformanceMetricsInternal.
  cbn [AllTime.topPicksCount AllTime.otherBetsCount AllTime.totalBetsShown
       AllTime.topPicksWins AllTime.otherBetsWins AllTime.totalWins
       AllTime.topPicksLosses AllTime.otherBetsLosses AllTime.totalLosses].
  repeat match goal with |- _ /\ _ => split end;
    rewrite ?inject_Z_sub; try lia; lra.
Qed.

(** X12. The panel recovers the server's win count: for a snapshot whose
    win rate is [W / totalBets] with [W] an integer and [totalBets] not 0,
    the wins shown are [W], the losses [totalBets - W], and the win rate
    shown is the server's. *)
Theorem allTime_wins_roundtrip (W : Z) (tb tw pl tc tpw tpl twr : Q) :
  ~ tb == 0 ->
  let p := AllTime.loadPerformanceMetricsInternal
             (snapshot tb tw pl (inject_Z W / tb) tc tpw tpl twr) in
  AllTime.totalWins p = W /\
  AllTime.totalLosses p == tb - inject_Z W /\
  AllTime.winRate (AllTime.overallMetrics p) == inject_Z W / tb.
Proof.
  intros Htb p.
  assert (Hw : AllTime.totalWins p = W).
  { subst p. unfold AllTime.loadPerformanceMetricsInternal, snapshot.
    cbn [AllTime.totalWins Data.winRate Data.totalBets].
    rewrite <- (Math_round_Z W) at 2. apply Math_round_compat.
    rewrite !or_zero_num. now field. }
  split; [exact Hw|].
  assert (Hb : AllTime.totalLosses p == tb - inject_Z (AllTime.totalWins p)).
  { subst p. unfold AllTime.loadPerformanceMetricsInternal, snapshot.
    cbn [AllTime.totalLosses AllTime.totalWins Data.winRate Data.totalBets].
    pose proof (or_zero_num tb) as E. lra. }
  assert (Hr : AllTime.winRate (AllTime.overallMetrics p)
               == calculateWinRate (inject_Z (AllTime.totalWins p)) tb).
  { subst p. unfold AllTime.loadPerformanceMetricsInternal, snapshot,
      AllTime.metrics.
    cbn [AllTime.winRate AllTime.overallMetrics AllTime.totalWins
         Data.winRate Data.totalBets].
    apply calculateWinRate_compat; [reflexivity | apply or_zero_num]. }
  rewrite Hw in Hb, Hr. split; [exact Hb|].
  rewrite Hr. unfold calculateWinRate.
  destruct (Qeq_bool tb 0) eqn:E; [|reflexivity].
  apply Qeq_bool_iff in E. contradiction.
Qed.

Lemma allTime_wins_roundtrip_witness :
  let p := AllTime.loadPerformanceMetricsInternal
             (snapshot 7 700 35 (inject_Z 4 / 7) 3 300 20 (2 # 3)) in
  AllTime.totalWins p = 4%Z /\
  AllTime.totalLosses p == 7 - inject_Z 4 /\
  AllTime.winRate (AllTime.overallMetrics p) == inject_Z 4 / 7.
Proof.
  apply (allTime_wins_roundtrip 4 7 700 35 3 300 20 (2 # 3)). discriminate.
Defined.

(** X13. For a snapshot with a whole, non-negative number of bets [n] and
    a win rate between 0 and 1, the panel's wins are between 0 and [n], its
    losses are not negative, and the wins are within half a bet of
    [winRate * n]. *)
Theorem allTime_wins_bounded (n : Z) (wr tw pl tc tpw tpl twr : Q) :
  (0 <= n)%Z -> 0 <= wr -> wr <= 1 ->
  let p := AllTime.loadPerformanceMetricsInternal
             (snapshot (inject_Z n) tw pl wr tc tpw tpl twr) in
  (0 <= AllTime.totalWins p <= n)%Z /\
  0 <= AllTime.totalLosses p /\
  inject_Z (AllTime.totalWins p) - (1 # 2) <= wr * inject_Z n /\
  wr * inject_Z n < inject_Z (AllTime.totalWins p) + (1 # 2).
Proof.
  intros Hn H0 H1 p.
  assert (Hw : AllTime.totalWins p = Math_round (wr * inject_Z n)).
  { subst p. unfold AllTime.loadPerformanceMetricsInternal, snapshot.
    cbn [AllTime.totalWins Data.winRate Data.totalBets].
    apply Math_round_compat. now rewrite !or_zero_num. }
  assert (Hl : AllTime.totalLosses p
               == inject_Z n - inject_Z (AllTime.totalWins p)).
  { subst p. unfold AllTime.loadPerformanceMetricsInternal, snapshot.
    cbn [AllTime.totalLosses AllTime.totalWins Data.winRate Data.totalBets].
    pose proof (or_zero_num (inject_Z n)) as E. lra. }
  destruct (Math_round_bounds (wr * inject_Z n)) as [Blo Bhi].
  rewrite <- Hw in Blo, Bhi.
  assert (Qn : 0 <= inject_Z n).
  { change 0 with (inject_Z 0). rewrite <- Zle_Qle. exact Hn. }
  assert (Plo : 0 <= wr * inject_Z n) by (apply Qmult_le_0_compat; assumption).
  assert (Phi : wr * inject_Z n <= inject_Z n).
  { setoid_replace (inject_Z n) with (1 * inject_Z n) at 2 by ring.
    apply Qmult_le_compat_r; assumption. }
  assert (Wlo : (0 <= AllTime.totalWins p)%Z).
  { assert (L : inject_Z (-1) < inject_Z (AllTime.totalWins p)).
    { change (inject_Z (-1)) with (-1). lra. }
    rewrite <- Zlt_Qlt in L. lia. }
  assert (Whi : (AllTime.totalWins p <= n)%Z).
  { assert (L : inject_Z (AllTime.totalWins p) < inject_Z (n + 1)).
    { rewrite inject_Z_plus. change (inject_Z 1) with 1. lra. }
    rewrite <- Zlt_Qlt in L. lia. }
  split; [lia|]. split; [|split; assumption].
  rewrite Hl. rewrite Zle_Qle in Whi. lra.
Qed.

Lemma allTime_wins_bounded_witness :
  let p := AllTime.loadPerformanceMetricsInternal
             (snapshot (inject_Z 9) 900 35 (61 # 100) 3 300 20 (2 # 3)) in
  (0 <= AllTime.totalWins p <= 9)%Z /\
  0 <= AllTime.totalLosses p /\
  inject_Z (AllTime.totalWins p) - (1 # 2) <= (61 # 100) * inject_Z 9 /\
  (61 # 100) * inject_Z 9 < inject_Z (AllTime.totalWins p) + (1 # 2).
Proof.
  apply (allTime_wins_bounded 9 (61 # 100) 900 35 3 300 20 (2 # 3));
    [lia | discriminate | discriminate].
Defined.

(** ** The header and the panel on one snapshot *)

Lemma ToNumber_or_zero (v : jsval) (q : Q) :
  ToNumber v = Some q -> or_zero v == q.
Proof.
  destruct v as [ | | [|] | x]; cbn; intro H; try discriminate;
    injection H as <-; try reflexivity.
  apply or_zero_num.
Qed.

Lemma ToNumber_none (v : jsval) : ToNumber v = None -> v = JUndefined.
Proof. destruct v as [ | | [|] | x]; cbn; congruence. Qed.

Lemma Math_round_zero (x : Q) : x == 0 -> Math_round x = 0%Z.
Proof.
  intro H. transitivity (Math_round (inject_Z 0));
    [now apply Math_round_compat | apply Math_round_Z].
Qed.

(** X14. The header and the all-time panel agree wherever the header has a
    number: the header's win count is the panel's, and its bankroll is
    10000 plus the panel's profit/loss.  The header has NaN instead only
    when a field it reads is absent ([winRate] or [totalBets] for the
    wins, [totalProfitLoss] for the bankroll), and there the panel takes
    0: it shows 0 wins, resp. a profit/loss of 0. *)
Theorem header_agrees_with_panel (data : Data.t) :
  let h := Header.compute data in
  let p := AllTime.loadPerformanceMetricsInternal data in
  match Header.totalWins h with
  | Some n => n = AllTime.totalWins p
  | None =>
      (Data.winRate data = JUndefined \/ Data.totalBets data = JUndefined) /\
      AllTime.totalWins p = 0%Z
  end /\
  match Header.currentBankroll h with
  | Some b => b == 10000 + AllTime.totalPL p
  | None => Data.totalProfitLoss data = JUndefined /\ AllTime.totalPL p = 0
  end.
Proof.
  intros h p. subst h p.
  unfold Header.compute, Header.bind, AllTime.loadPerformanceMetricsInternal.
  cbn [Header.totalWins Header.currentBankroll AllTime.totalWins
       AllTime.totalPL].
  split.
  - destruct (ToNumber (Data.winRate data)) as [wr|] eqn:Ew.
    + destruct (ToNumber (Data.totalBets data)) as [tb|] eqn:Eb.
      * apply Math_round_compat.
        now rewrite (ToNumber_or_zero _ _ Ew), (ToNumber_or_zero _ _ Eb).
      * apply ToNumber_none in Eb. split; [now right|].
        rewrite Eb. apply Math_round_zero. cbn. ring.
    + apply ToNumber_none in Ew. split; [now left|].
      rewrite Ew. apply Math_round_zero. cbn. ring.
  - destruct (ToNumber (Data.totalProfitLoss data)) as [pl|] eqn:Ep.
    + unfold Header.startingBankroll.
      now rewrite (ToNumber_or_zero _ _ Ep).
    + apply ToNumber_none in Ep. rewrite Ep. split; reflexivity.
Qed.

Lemma signClass_three_way (v : Q) :
  Header.signClass (Some v) 0 = weeklyPLClass v.
Proof. reflexivity. Qed.

(** X15. The header's ROI colour never contradicts the sign of the
    all-time profit/loss: a profit/loss that is not negative is never
    coloured negative, one that is not positive never positive, and a
    profit/loss of 0 or an absent one gets no class. *)
Theorem header_roi_sign (data : Data.t) :
  let h := Header.compute data in
  match ToNumber (Data.totalProfitLoss data) with
  | Some pl =>
      (0 <= pl -> Header.headerROIClass h <> Negative) /\
      (pl <= 0 -> Header.headerROIClass h <> Positive) /\
      (pl == 0 -> Header.headerROIClass h = NoClass)
  | None => Header.headerROIClass h = NoClass
  end.
Proof.
  intro h. subst h. unfold Header.compute, Header.bind.
  cbn [Header.headerROIClass].
  destruct (ToNumber (Data.totalProfitLoss data)) as [pl|];
    [|reflexivity].
  unfold Header.startingBankroll. rewrite signClass_three_way.
  set (roi := (10000 + pl - 10000) / 10000 * 100).
  assert (E : roi == pl * (1 # 100)) by (subst roi; field).
  unfold weeklyPLClass.
  destruct (gt roi 0) eqn:G; [apply gt_iff in G|];
    (destruct (lt roi 0) eqn:L; [apply lt_iff in L|]);
    repeat split; intro H; try discriminate; try reflexivity;
    exfalso; lra.
Qed.

Lemma header_roi_sign_witness :
  Header.headerROIClass (Header.compute snapshot_even) = NoClass.
Proof.
  apply (proj2 (proj2 (header_roi_sign snapshot_even))). reflexivity.
Defined.

Lemma blank_or_zero (v : jsval) : truthy v = false -> or_zero v = 0.
Proof. unfold or_zero. now intros ->. Qed.

Lemma blank_snapshot_value (data : Data.t) :
  snapshot_blank data = true ->
  AllTime.loadPerformanceMetricsInternal data
  = AllTime.loadPerformanceMetricsInternal
      (Data.mk JUndefined JUndefined JUndefined JUndefined
               JUndefined JUndefined JUndefined JUndefined).
Proof.
  unfold snapshot_blank. intro H.
  repeat (apply andb_true_iff in H; destruct H as [H ?]).
  repeat match goal with
         | X : negb (truthy _) = true |- _ =>
             apply negb_true_iff, blank_or_zero in X
         end.
  unfold AllTime.loadPerformanceMetricsInternal.
  repeat match goal with X : or_zero _ = 0 |- _ => rewrite X; clear X end.
  reflexivity.
Qed.

(** X16. A snapshot none of whose fields is present with a non-zero value
    (an empty response, say) gives a panel of zeros: the bets, wagers,
    profits/losses, wins and losses of the three rows are 0, no row has an
    ROI percentage, and every win rate is shown as 0%.  The three
    profit/loss figures are then coloured positive and the three win rates
    negative. *)
Theorem blank_snapshot_panel (data : Data.t) :
  snapshot_blank data = true ->
  let p := AllTime.loadPerformanceMetricsInternal data in
  (AllTime.totalBetsShown p == 0 /\ AllTime.totalWager p == 0 /\
   AllTime.totalPL p == 0 /\ AllTime.totalWins p = 0%Z /\
   AllTime.totalLosses p == 0) /\
  (AllTime.topPicksCount p == 0 /\ AllTime.topPicksWager p == 0 /\
   AllTime.topPicksPL p == 0 /\ AllTime.topPicksWins p = 0%Z /\
   AllTime.topPicksLosses p == 0) /\
  (AllTime.otherBetsCount p == 0 /\ AllTime.otherBetsWager p == 0 /\
   AllTime.otherBetsPL p == 0 /\ AllTime.otherBetsWins p = 0%Z /\
   AllTime.otherBetsLosses p == 0) /\
  (forall m,
     In m [AllTime.overallMetrics p; AllTime.topPicksMetrics p;
           AllTime.otherBetsMetrics p] ->
     AllTime.roiFormatted m = None /\ AllTime.winRateShown m = 0%Z) /\
  (AllTime.totalPLClass p = Positive /\
   AllTime.topPicksPLClass p = Positive /\
   AllTime.otherBetsPLClass p = Positive) /\
  (AllTime.winRateElementClass p = Negative /\
   AllTime.topPicksWinRateClass p = Negative /\
   AllTime.otherBetsWinRateClass p = Negative).
Proof.
  intros H p. subst p. rewrite (blank_snapshot_value data H).
  vm_compute.
  repeat match goal with |- _ /\ _ => split end; try reflexivity.
  intros m [<- | [<- | [<- | []]]]; split; reflexivity.
Qed.

Lemma blank_snapshot_panel_witness :
  let p := AllTime.loadPerformanceMetricsInternal
             (Data.mk JUndefined JUndefined JNull JUndefined
                      (JNum 0) JUndefined (JBool false) JUndefined) in
  AllTime.totalPLClass p = Positive /\
  AllTime.winRateElementClass p = Negative.
Proof.
  pose proof (blank_snapshot_panel
           (Data.mk JUndefined JUndefined JNull JUndefined
                    (JNum 0) JUndefined (JBool false) JUndefined)
           eq_refl) as (_ & _ & _ & _ & (A & _) & (B & _)).
  split; [exact A | exact B].
Defined.

(** ** Week navigation *)

Lemma has_add_same (weeks : list Z) (w : Z) : Nav.has (Nav.add weeks w) w = true.
Proof.
  unfold Nav.add. destruct (Nav.has weeks w) eqn:E; [exact E|].
  unfold Nav.has. rewrite existsb_app. cbn. rewrite Z.eqb_refl.
  now rewrite orb_true_r.
Qed.

Lemma has_add_mono (weeks : list Z) (w x : Z) :
  Nav.has weeks x = true -> Nav.has (Nav.add weeks w) x = true.
Proof.
  intro H. unfold Nav.add. destruct (Nav.has weeks w); [exact H|].
  unfold Nav.has in *. rewrite existsb_app, H. reflexivity.
Qed.

Lemma has_add_inv (weeks : list Z) (w x : Z) :
  Nav.has (Nav.add weeks w) x = true -> Nav.has weeks x = true \/ x = w.
Proof.
  unfold Nav.add. destruct (Nav.has weeks w); [now left|].
  unfold Nav.has. rewrite existsb_app. cbn. rewrite orb_false_r.
  intro H. apply orb_true_iff in H as [H | H]; [now left|].
  right. now apply Z.eqb_eq.
Qed.

Lemma checkWeek_cached (srv : Nav.Server) (week : Z) (weeks : list Z) :
  Nav.has weeks week = true -> Nav.checkWeek srv week weeks = (true, weeks).
Proof. intro H. unfold Nav.checkWeek. now rewrite H. Qed.

Lemma checkWeek_result (srv : Nav.Server) (week : Z) (weeks : list Z) :
  fst (Nav.checkWeek srv week weeks)
  = Nav.has (snd (Nav.checkWeek srv week weeks)) week.
Proof.
  unfold Nav.checkWeek. destruct (Nav.has weeks week) eqn:E.
  - cbn [fst snd]. now rewrite E.
  - destruct (srv week) as [n|]; [|cbn [fst snd]; now rewrite E].
    destruct (0 <? n)%nat; cbn [fst snd];
      [now rewrite has_add_same | now rewrite E].
Qed.

Lemma checkWeek_mono (srv : Nav.Server) (week : Z) (weeks : list Z) (x : Z) :
  Nav.has weeks x = true ->
  Nav.has (snd (Nav.checkWeek srv week weeks)) x = true.
Proof.
  intro H. unfold Nav.checkWeek. destruct (Nav.has weeks week); [exact H|].
  destruct (srv week) as [n|]; [|exact H].
  destruct (0 <? n)%nat; cbn [fst snd]; [now apply has_add_mono | exact H].
Qed.

Lemma checkWeek_only (srv : Nav.Server) (week : Z) (weeks : list Z) (x : Z) :
  Nav.has (snd (Nav.checkWeek srv week weeks)) x = true ->
  Nav.has weeks x = true \/
  (x = week /\ exists n, srv week = Some n /\ (0 < n)%nat).
Proof.
  unfold Nav.checkWeek. destruct (Nav.has weeks week); [now left|].
  destruct (srv week) as [n|]; [|now left].
  destruct (0 <? n)%nat eqn:E; cbn [fst snd]; [|now left].
  intro H. apply has_add_inv in H as [H | ->]; [now left|].
  right. split; [reflexivity|]. exists n. split; [reflexivity|].
  now apply Nat.ltb_lt.
Qed.

(** X17. [checkWeek] answers true exactly when the week is among the
    available weeks afterwards.  It never removes a week, and the only week
    it can add is the one asked for, and only when the server returned a
    non-empty list for it.  A week that is already available is answered
    true without change whatever the server says, a failed request
    included. *)
Theorem checkWeek_spec (srv : Nav.Server) (week : Z) (weeks : list Z) :
  let r := Nav.checkWeek srv week weeks in
  fst r = Nav.has (snd r) week /\
  (forall x, Nav.has weeks x = true -> Nav.has (snd r) x = true) /\
  (forall x, Nav.has (snd r) x = true ->
             Nav.has weeks x = true \/
             (x = week /\ exists n, srv week = Some n /\ (0 < n)%nat)) /\
  (Nav.has weeks week = true ->
   forall srv', Nav.checkWeek srv' week weeks = (true, weeks)).
Proof.
  cbv zeta. split; [apply checkWeek_result|].
  split; [intro x; apply checkWeek_mono|].
  split; [intro x; apply checkWeek_only|].
  intros H srv'. now apply checkWeek_cached.
Qed.

Lemma checkWeek_spec_witness :
  Nav.checkWeek (fun _ => None) 3 [1; 3]%Z = (true, [1; 3]%Z).
Proof.
  apply (proj2 (proj2 (proj2
           (checkWeek_spec (fun _ => Some 2%nat) 3 [1; 3]%Z)))).
  reflexivity.
Defined.

Lemma check_if_truthy_mono srv week weeks x :
  Nav.has weeks x = true ->
  Nav.has (snd (Nav.check_if_truthy srv week weeks)) x = true.
Proof.
  intro H. unfold Nav.check_if_truthy. destruct week as [w|]; [|exact H].
  destruct (w =? 0)%Z; [exact H | now apply checkWeek_mono].
Qed.

Lemma check_if_truthy_true srv week weeks :
  fst (Nav.check_if_truthy srv week weeks) = true ->
  exists w, week = Some w /\
            Nav.has (snd (Nav.check_if_truthy srv week weeks)) w = true.
Proof.
  unfold Nav.check_if_truthy. destruct week as [w|]; [|discriminate].
  destruct (w =? 0)%Z; [discriminate|].
  intro H. exists w. split; [reflexivity|].
  now rewrite <- checkWeek_result.
Qed.

Lemma updateWeekNavigation_spec (srv : Nav.Server) (st : Nav.State) :
  let r := Nav.updateWeekNavigation srv st in
  Nav.currentWeek (snd r) = Nav.currentWeek st /\
  Nav.totalWeeks (snd r) = Nav.totalWeeks st /\
  (forall x, Nav.has (Nav.availableWeeks st) x = true ->
             Nav.has (Nav.availableWeeks (snd r)) x = true) /\
  (Nav.hasPrevWeek (fst r) = true ->
   (1 < Nav.currentWeek st)%Z /\
   Nav.has (Nav.availableWeeks (snd r)) (Nav.currentWeek st - 1) = true) /\
  (Nav.hasNextWeek (fst r) = true ->
   (Nav.currentWeek st < Nav.totalWeeks st)%Z /\
   Nav.has (Nav.availableWeeks (snd r)) (Nav.currentWeek st + 1) = true).
Proof.
  unfold Nav.updateWeekNavigation.
  set (prevWeek := if (Nav.currentWeek st >? 1)%Z
                   then Some (Nav.currentWeek st - 1)%Z else None).
  set (nextWeek := if (Nav.currentWeek st <? Nav.totalWeeks st)%Z
                   then Some (Nav.currentWeek st + 1)%Z else None).
  pose proof (check_if_truthy_true srv prevWeek (Nav.availableWeeks st)) as P.
  pose proof (fun x =>
    check_if_truthy_mono srv prevWeek (Nav.availableWeeks st) x) as PM.
  destruct (Nav.check_if_truthy srv prevWeek (Nav.availableWeeks st))
    as [hasPrev weeks1].
  pose proof (check_if_truthy_true srv nextWeek weeks1) as N.
  pose proof (fun x => check_if_truthy_mono srv nextWeek weeks1 x) as NM.
  destruct (Nav.check_if_truthy srv nextWeek weeks1) as [hasNext weeks2].
  cbn [fst snd Nav.currentWeek Nav.totalWeeks Nav.availableWeeks
       Nav.hasPrevWeek Nav.hasNextWeek] in *.
  split; [reflexivity|]. split; [reflexivity|].
  split; [intros x H; apply NM, PM, H|]. split.
  - intro H. destruct (P H) as (w & Ew & Hw). subst prevWeek.
    destruct (Nav.currentWeek st >? 1)%Z eqn:C; [|discriminate].
    injection Ew as <-. split; [lia | now apply NM].
  - intro H. destruct (N H) as (w & Ew & Hw). subst nextWeek.
    destruct (Nav.currentWeek st <? Nav.totalWeeks st)%Z eqn:C;
      [|discriminate].
    injection Ew as <-. split; [lia | exact Hw].
Qed.

Lemma changeWeek_spec (srv : Nav.Server) (direction : Z) (st : Nav.State) :
  let st' := snd (Nav.changeWeek srv direction st) in
  Nav.totalWeeks st' = Nav.totalWeeks st /\
  (forall x, Nav.has (Nav.availableWeeks st) x = true ->
             Nav.has (Nav.availableWeeks st') x = true) /\
  (Nav.currentWeek st' = Nav.currentWeek st \/
   (Nav.currentWeek st' = (Nav.currentWeek st + direction)%Z /\
    (1 <= Nav.currentWeek st' <= Nav.totalWeeks st)%Z /\
    Nav.has (Nav.availableWeeks st') (Nav.currentWeek st') = true)).
Proof.
  unfold Nav.changeWeek.
  set (newWeek := (Nav.currentWeek st + direction)%Z).
  destruct ((newWeek >=? 1)%Z && (newWeek <=? Nav.totalWeeks st)%Z) eqn:R;
    [|cbn; auto].
  apply andb_true_iff in R as [R1 R2].
  pose proof (checkWeek_result srv newWeek (Nav.availableWeeks st)) as CR.
  pose proof (fun x =>
    checkWeek_mono srv newWeek (Nav.availableWeeks st) x) as CM.
  destruct (Nav.checkWeek srv newWeek (Nav.availableWeeks st))
    as [hasRec weeks1].
  cbn [fst snd] in CR, CM.
  destruct hasRec.
  - pose proof (updateWeekNavigation_spec srv
                  (Nav.mkState newWeek (Nav.totalWeeks st) weeks1))
      as (U1 & U2 & U3 & _).
    destruct (Nav.updateWeekNavigation srv
                (Nav.mkState newWeek (Nav.totalWeeks st) weeks1))
      as [buttons st'].
    cbn [fst snd Nav.currentWeek Nav.totalWeeks Nav.availableWeeks] in *.
    split; [exact U2|]. split; [intros x H; apply U3, CM, H|].
    right. rewrite U1. split; [reflexivity|]. split; [lia|].
    apply U3. now symmetry.
  - cbn. auto.
Qed.

(** X18. Clicking through the weeks keeps the page sound: from a state
    whose week is between 1 and [totalWeeks] and is available, any sequence
    of [changeWeek] calls, with any directions and any server answers,
    ends in such a state; [totalWeeks] does not change and no available
    week is forgotten. *)
Theorem clicks_keep_sound (events : list (Nav.Server * Z)) (st : Nav.State) :
  Nav.sound st ->
  Nav.sound (Nav.clicks events st) /\
  Nav.totalWeeks (Nav.clicks events st) = Nav.totalWeeks st /\
  (forall x, Nav.has (Nav.availableWeeks st) x = true ->
             Nav.has (Nav.availableWeeks (Nav.clicks events st)) x = true).
Proof.
  revert st. induction events as [|[srv direction] events IH]; intros st H.
  - cbn. auto.
  - unfold Nav.clicks in *. cbn [fold_left fst snd].
    destruct (changeWeek_spec srv direction st) as (T & M & C).
    set (st1 := snd (Nav.changeWeek srv direction st)) in *.
    assert (S1 : Nav.sound st1).
    { destruct H as [Hr Ha]. unfold Nav.sound.
      destruct C as [C | (C & Cr & Ca)].
      - rewrite C, T. split; [exact Hr | now apply M].
      - rewrite T. split; [exact Cr | exact Ca]. }
    destruct (IH st1 S1) as (I1 & I2 & I3).
    split; [exact I1|]. split; [now rewrite I2|].
    intros x Hx. apply I3, M, Hx.
Qed.

Lemma clicks_keep_sound_witness :
  Nav.sound
    (Nav.clicks [(fun w => if (w =? 2)%Z then Some 3%nat else None, 1%Z);
                 (fun _ => None, 1%Z);
                 (fun _ => Some 0%nat, (-5)%Z)]
                Nav.initial).
Proof.
  apply (clicks_keep_sound
           [(fun w => if (w =? 2)%Z then Some 3%nat else None, 1%Z);
            (fun _ => None, 1%Z);
            (fun _ => Some 0%nat, (-5)%Z)]
           Nav.initial).
  split; [cbn; lia | reflexivity].
Defined.

(** X19. A navigation button that [updateWeekNavigation] shows works: on a
    page whose week is between 1 and [totalWeeks], if the next (previous)
    button was left enabled, then a click on it moves to the next
    (previous) week, whatever the server answers at the time of the click.
    On any page, the previous button is never shown at week 1 or below,
    and the next button never at [totalWeeks] or beyond. *)
Theorem shown_button_works (srv srv' : Nav.Server) (st : Nav.State) :
  let r := Nav.updateWeekNavigation srv st in
  ((1 <= Nav.currentWeek st <= Nav.totalWeeks st)%Z ->
   (Nav.hasNextWeek (fst r) = true ->
    Nav.currentWeek (snd (Nav.changeWeek srv' 1 (snd r)))
    = (Nav.currentWeek st + 1)%Z) /\
   (Nav.hasPrevWeek (fst r) = true ->
    Nav.currentWeek (snd (Nav.changeWeek srv' (-1) (snd r)))
    = (Nav.currentWeek st - 1)%Z)) /\
  ((Nav.currentWeek st <= 1)%Z -> Nav.hasPrevWeek (fst r) = false) /\
  ((Nav.totalWeeks st <= Nav.currentWeek st)%Z ->
   Nav.hasNextWeek (fst r) = false).
Proof.
  intro r.
  destruct (updateWeekNavigation_spec srv st) as (U1 & U2 & U3 & UP & UN).
  fold r in U1, U2, U3, UP, UN.
  assert (Move : forall d,
    (1 <= Nav.currentWeek st + d <= Nav.totalWeeks st)%Z ->
    Nav.has (Nav.availableWeeks (snd r)) (Nav.currentWeek st + d) = true ->
    Nav.currentWeek (snd (Nav.changeWeek srv' d (snd r)))
    = (Nav.currentWeek st + d)%Z).
  { intros d Hd Ha. unfold Nav.changeWeek. rewrite U1, U2.
    assert (R : ((Nav.currentWeek st + d >=? 1)
                 && (Nav.currentWeek st + d <=? Nav.totalWeeks st))%Z = true).
    { apply andb_true_iff. split; [apply Z.geb_le | apply Z.leb_le]; lia. }
    rewrite R, (checkWeek_cached srv' _ _ Ha).
    pose proof (updateWeekNavigation_spec srv'
      (Nav.mkState (Nav.currentWeek st + d) (Nav.totalWeeks st)
                   (Nav.availableWeeks (snd r)))) as (V1 & _).
    destruct (Nav.updateWeekNavigation srv'
      (Nav.mkState (Nav.currentWeek st + d) (Nav.totalWeeks st)
                   (Nav.availableWeeks (snd r)))) as [b s'].
    exact V1. }
  split; [|split].
  - intro Hr. split.
    + intro H. destruct (UN H) as [Hlt Ha]. apply Move; [lia | exact Ha].
    + intro H. destruct (UP H) as [Hlt Ha].
      change (Nav.currentWeek st - 1)%Z with (Nav.currentWeek st + -1)%Z.
      apply Move; [lia | exact Ha].
  - intro H. destruct (Nav.hasPrevWeek (fst r)) eqn:E; [|reflexivity].
    destruct (UP eq_refl). lia.
  - intro H. destruct (Nav.hasNextWeek (fst r)) eqn:E; [|reflexivity].
    destruct (UN eq_refl). lia.
Qed.

Lemma shown_button_works_witness :
  Nav.currentWeek
    (snd (Nav.changeWeek (fun _ => None) 1
            (snd (Nav.updateWeekNavigation (fun _ => Some 4%nat)
                                           Nav.initial))))
  = (Nav.currentWeek Nav.initial + 1)%Z /\
  Nav.hasNextWeek
    (fst (Nav.updateWeekNavigation (fun _ => Some 4%nat)
            (Nav.mkState 19 18 [1%Z])))
  = false.
Proof.
  split.
  - apply (proj1 (proj1 (shown_button_works (fun _ => Some 4%nat)
                           (fun _ => None) Nav.initial)
                        ltac:(cbn; lia))).
    reflexivity.
  - apply (proj2 (proj2 (shown_button_works (fun _ => Some 4%nat)
                           (fun _ => None) (Nav.mkState 19 18 [1%Z])))).
    cbn. lia.
Defined.
